(** * GugikHttpClient: a shallow embedding of [app/core/gugik_client.py]

    The client has five methods of interest: the retrying [get_request], the
    streaming [download_file], the capability parser [get_wms_layers], the
    URL classifier [_generate_filename] and the helper [_cleanup_file].

    Conventions of the embedding.
    - A Python [str] is a [string]: the UTF-8 bytes of the text.  The
      classifier only ever looks for the ASCII characters [/], [?], [=] and
      for ASCII words; none of these bytes occurs inside a multi-byte UTF-8
      sequence, so splitting, searching and replacing agree on both views.
    - A Python [int] is a [Z]; [bytes] is a [list byte].
    - A call either returns or raises: [result].  Calls that touch the
      outside also change a [state], the files on disk and the trace of
      calls made so far.
    - Everything outside the client (the socket probe, [requests], the disk,
      the XML parser, the callbacks handed in by the caller) is an oracle;
      an oracle is asked by the number of earlier calls of its kind.
    - The socket probe and the two callbacks return and do not raise.  The
      disk holds regular files only, and removing an open file works as on
      POSIX.  Logging and timeout values have no part in any result and are
      left out. *)

From Stdlib Require Import ZArith String Ascii List Bool Lia DecimalString Znumtheory Sorted.
From stdpp Require Import gmap strings.

Local Open Scope Z_scope.

(** ** Exceptions and results *)

(** The exception classes the client can meet, as far as its [except]
    clauses tell them apart.  [requests.exceptions.RequestException] derives
    from [IOError], hence so do all the transport errors. *)
Inductive exn : Type :=
| IndexError
| ValueError
| AttributeError
| ConnectionError        (* requests.exceptions.ConnectionError and subclasses *)
| ChunkedEncodingError   (* requests.exceptions.ChunkedEncodingError *)
| ReadTimeout            (* requests.exceptions.Timeout that is no ConnectionError *)
| RequestException       (* any other requests exception *)
| OSError                (* a local input/output failure *)
| XMLSyntaxError.

Definition is_ConnectionError (e : exn) : bool :=
  match e with ConnectionError => true | _ => false end.

Definition is_ChunkedEncodingError (e : exn) : bool :=
  match e with ChunkedEncodingError => true | _ => false end.

(** [isinstance(e, IOError)]. *)
Definition is_IOError (e : exn) : bool :=
  match e with
  | ConnectionError | ChunkedEncodingError | ReadTimeout
  | RequestException | OSError => true
  | _ => false
  end.

Inductive result (A : Type) : Type :=
| Ok (a : A)
| Raise (e : exn).
Arguments Ok {A} a.
Arguments Raise {A} e.

Definition rbind {A B} (r : result A) (k : A -> result B) : result B :=
  match r with Ok a => k a | Raise e => Raise e end.

(** ** Python string and list primitives *)

Module Py.

(** [s.startswith(p)]. *)
Fixpoint startswith (p s : string) : bool :=
  match p, s with
  | EmptyString, _ => true
  | String _ _, EmptyString => false
  | String a p', String b s' => Ascii.eqb a b && startswith p' s'
  end.

(** [sub in s]: [sub] occurs in [s] as a contiguous substring. *)
Fixpoint contains (sub s : string) : bool :=
  startswith sub s ||
  match s with
  | EmptyString => false
  | String _ s' => contains sub s'
  end.

(** [s.endswith(suf)]. *)
Fixpoint endswith (suf s : string) : bool :=
  String.eqb s suf ||
  match s with
  | EmptyString => false
  | String _ s' => endswith suf s'
  end.

(** [s.split(sep)] for a one-character separator: never the empty list. *)
Fixpoint split (sep : ascii) (s : string) : list string :=
  match s with
  | EmptyString => [EmptyString]
  | String c s' =>
      if Ascii.eqb c sep then EmptyString :: split sep s'
      else match split sep s' with
           | [] => [String c EmptyString]
           | h :: t => String c h :: t
           end
  end.

(** [s.replace(old, new)] for one-character [old] and [new]. *)
Fixpoint replace (old new : ascii) (s : string) : string :=
  match s with
  | EmptyString => EmptyString
  | String c s' => String (if Ascii.eqb c old then new else c) (replace old new s')
  end.

(** [l[i]], negative indices counting from the end, [IndexError] outside. *)
Definition getitem {A} (l : list A) (i : Z) : result A :=
  let n := Z.of_nat (length l) in
  let j := if i <? 0 then i + n else i in
  if (j <? 0) || (n <=? j) then Raise IndexError
  else match nth_error l (Z.to_nat j) with
       | Some x => Ok x
       | None => Raise IndexError
       end.

(** [str(n)] for an [int]. *)
Definition str_of_int (n : Z) : string := NilEmpty.string_of_int (Z.to_int n).

(** [os.path.join(a, b)] (the POSIX one, two arguments). *)
Definition path_join (a b : string) : string :=
  if startswith "/" b then b
  else if String.eqb a "" || endswith "/" a then a +:+ b
  else a +:+ "/" +:+ b.

End Py.

(** ** The filename classifier *)

(** The [if 'Budynki3D' in url: ... elif ...] chain of [_generate_filename],
    run on the [file_name] computed so far. *)
Definition prefix_rules (url file_name : string) : result string :=
  if Py.contains "Budynki3D" url then
    let file_name :=
      if Py.contains "LOD1" url then "Budynki_3D_LOD1_" +:+ file_name
      else if Py.contains "LOD2" url then "Budynki_3D_LOD2_" +:+ file_name
      else file_name in
    if Z.of_nat (length (Py.split "/" url)) =? 9 then
      rbind (Py.getitem (Py.split "/" url) 6) (fun seg =>
      Ok (seg +:+ "_" +:+ file_name))
    else Ok file_name
  else if Py.contains "PRG" url then
    Ok ("PRG_" +:+ file_name)
  else if Py.contains "bdot10k" url && negb (Py.contains "Archiwum" url) then
    Ok ("bdot10k_" +:+ file_name)
  else if Py.contains "Archiwum" url && Py.contains "bdot10k" url then
    rbind (Py.getitem (Py.split "/" url) 5) (fun seg =>
    Ok ("archiwalne_bdot10k_" +:+ seg +:+ "_" +:+ file_name))
  else if Py.contains "bdoo" url then
    rbind (Py.getitem (Py.split "/" url) 4) (fun seg =>
    Ok ("bdoo_" +:+ "rok" +:+ seg +:+ "_" +:+ file_name))
  else if Py.contains "ZestawieniaZbiorczeEGiB" url then
    rbind (Py.getitem (Py.split "/" url) 4) (fun seg =>
    Ok ("ZestawieniaZbiorczeEGiB_" +:+ "rok" +:+ seg +:+ "_" +:+ file_name))
  else if Py.contains "osnowa" url then
    Ok ("podstawowa_osnowa_" +:+ file_name)
  else Ok file_name.

(** [GugikHttpClient._generate_filename]. *)
Definition _generate_filename (url : string) : result string :=
  rbind (Py.getitem (Py.split "/" url) (-1)) (fun file_name =>
  rbind (if Py.contains "?" file_name
         then rbind (Py.getitem (Py.split "?" file_name) (-1)) (fun q =>
              Ok (Py.replace "=" "_" q +:+ ".zip"))
         else Ok file_name) (fun file_name =>
  prefix_rules url file_name)).

(** The baseline filename in the words of the specification: the final
    [/]-delimited segment of the URL; when that segment contains a [?], the
    piece after the last [?] with every [=] replaced by [_], followed by
    [.zip]. *)
Definition last_segment (sep : ascii) (s : string) : string :=
  List.last (Py.split sep s) EmptyString.

Definition baseline (url : string) : string :=
  let seg := last_segment "/" url in
  if Py.contains "?" seg
  then Py.replace "=" "_" (last_segment "?" seg) +:+ ".zip"
  else seg.

(** The index of the URL segment that the selected rule copies into the
    name, if it copies one: 6 for a nine-segment [Budynki3D] URL, 5 for the
    archive rule, 4 for [bdoo] and [ZestawieniaZbiorczeEGiB]. *)
Definition copied_index (url : string) : option nat :=
  if Py.contains "Budynki3D" url then
    if (length (Py.split "/" url) =? 9)%nat then Some 6%nat else None
  else if Py.contains "PRG" url then None
  else if Py.contains "bdot10k" url then
    if Py.contains "Archiwum" url then Some 5%nat else None
  else if Py.contains "bdoo" url then Some 4%nat
  else if Py.contains "ZestawieniaZbiorczeEGiB" url then Some 4%nat
  else None.

Definition copied_segment (url : string) : option string :=
  match copied_index url with
  | Some i => nth_error (Py.split "/" url) i
  | None => None
  end.

(** The URLs on which the rule chain indexes a segment the URL lacks. *)
Definition short_for_rule (url : string) : bool :=
  match copied_index url with
  | Some i => (length (Py.split "/" url) <=? i)%nat
  | None => false
  end.

(** ** The world outside the client *)

Definition bytes : Type := list Byte.byte.
Definition params : Type := list (string * string).

(** What [requests] hands back for a plain GET: status code and body text. *)
Record response : Type := Response {
  status_code : Z;
  text : string
}.

(** The value of [int(response.headers.get('content-length', 0))]: the
    header may be missing, hold an integer, or hold text [int] rejects. *)
Inductive content_length : Type :=
| LengthAbsent
| LengthInt (n : Z)
| LengthGarbage.

(** A streamed response: the chunks [iter_content] yields, in order, and the
    exception (if any) it raises once they are consumed. *)
Record stream_response : Type := StreamResponse {
  stream_status : Z;
  stream_length : content_length;
  stream_chunks : list bytes;
  stream_fault : option exn
}.

(** The oracles.  Each is indexed by the number of earlier calls of its kind,
    so a world is a script of what the network and the disk will answer. *)
Record World : Type := {
  connected : nat -> bool;
  http_get : nat -> string -> params -> result response;
  http_get_stream : nat -> string -> result stream_response;
  disk_ok : nat -> bool
}.

(** The calls made to the outside, most recent first. *)
Inductive event : Type :=
| EvProbe (up : bool)
| EvGet (url : string) (p : params)
| EvGetStream (url : string)
| EvSleep (seconds : Z)
| EvCancelCheck (stop : bool)
| EvClose
| EvRemove (path : string)
| EvMakedirs (folder : string)
| EvOpen (path : string)
| EvWrite (path : string) (chunk : bytes)
| EvProgress (downloaded total : Z).

Definition is_probe (e : event) : bool :=
  match e with EvProbe _ => true | _ => false end.
Definition is_request (e : event) : bool :=
  match e with EvGet _ _ | EvGetStream _ => true | _ => false end.
Definition is_sleep (e : event) : bool :=
  match e with EvSleep _ => true | _ => false end.
Definition is_cancel_check (e : event) : bool :=
  match e with EvCancelCheck _ => true | _ => false end.
Definition is_write (e : event) : bool :=
  match e with EvWrite _ _ => true | _ => false end.
Definition is_disk (e : event) : bool :=
  match e with
  | EvRemove _ | EvMakedirs _ | EvOpen _ | EvWrite _ _ => true
  | _ => false
  end.

Definition count (p : event -> bool) (tr : list event) : nat :=
  length (List.filter p tr).

(** The regular files on disk (path to content) and the trace so far. *)
Record state : Type := State {
  files : gmap string bytes;
  trace : list event
}.

Definition log (e : event) (s : state) : state :=
  {| files := files s; trace := e :: trace s |}.

(** Computations of the client: they may raise and they change the state. *)
Definition M (A : Type) : Type := state -> result A * state.

Definition ret {A} (a : A) : M A := fun s => (Ok a, s).
Definition raise {A} (e : exn) : M A := fun s => (Raise e, s).
Definition bind {A B} (m : M A) (k : A -> M B) : M B :=
  fun s => match m s with
           | (Ok a, s') => k a s'
           | (Raise e, s') => (Raise e, s')
           end.
Definition lift {A} (r : result A) : M A := fun s => (r, s).
Definition try_except {A} (m : M A) (handler : exn -> M A) : M A :=
  fun s => match m s with
           | (Ok a, s') => (Ok a, s')
           | (Raise e, s') => handler e s'
           end.

Declare Scope client_scope.
Delimit Scope client_scope with client.
Notation "'let*' x := m 'in' k" := (bind m (fun x => k))
  (at level 10, x name, m at level 100, k at level 200) : client_scope.
Notation "m >> k" := (bind m (fun _ => k))
  (at level 100, k at level 200, right associativity) : client_scope.

(** A caller-supplied [cancel_check]: its answer at each call. *)
Definition cancel_callback : Type := nat -> bool.
(** A caller-supplied [progress_callback]; its calls show in the trace. *)
Inductive progress_callback_t : Type := ProgressSink.

(** ** Python dictionaries, as far as [dict.fromkeys] needs them *)

Module Dict.

(** An insertion-ordered dictionary with string keys. *)
Definition t (V : Type) : Type := list (string * V).

(** [d[k] = v]: an existing key keeps its place, a new one goes last. *)
Fixpoint setitem {V} (d : t V) (k : string) (v : V) : t V :=
  match d with
  | [] => [(k, v)]
  | (k', v') :: d' =>
      if String.eqb k' k then (k', v) :: d' else (k', v') :: setitem d' k v
  end.

(** [dict.fromkeys(keys)]: every key mapped to [None]. *)
Definition fromkeys (keys : list string) : t unit :=
  fold_left (fun d k => setitem d k tt) keys [].

(** [list(d)]: the keys in insertion order. *)
Definition keys {V} (d : t V) : list string := map fst d.

End Dict.

(** ** Parsed XML, as [lxml] presents it *)

(** An element: namespace URI and local name of its tag,
    [nsmap.get(None)], [text] and the child elements. *)
#[local] Unset Elimination Schemes.
Inductive element : Type :=
  Element (ns : option string) (local : string)
          (nsmap_default : option string)
          (etext : option string) (children : list element).

#[local] Set Elimination Schemes.

Definition el_ns (e : element) : option string :=
  match e with Element ns _ _ _ _ => ns end.
Definition el_local (e : element) : string :=
  match e with Element _ l _ _ _ => l end.
Definition el_nsmap_default (e : element) : option string :=
  match e with Element _ _ d _ _ => d end.
Definition el_text (e : element) : option string :=
  match e with Element _ _ _ t _ => t end.
Definition el_children (e : element) : list element :=
  match e with Element _ _ _ _ cs => cs end.

(** Structural induction on documents, with the hypothesis on every child. *)
Fixpoint element_ind' (P : element -> Prop)
    (step : forall ns l d t cs, Forall P cs -> P (Element ns l d t cs))
    (e : element) : P e :=
  match e with
  | Element ns l d t cs =>
      step ns l d t cs
        ((fix children_ok (cs : list element) : Forall P cs :=
            match cs with
            | [] => List.Forall_nil P
            | c :: cs' =>
                @List.Forall_cons _ P c cs' (element_ind' P step c) (children_ok cs')
            end) cs)
  end.

(** The element carries the tag [{ns}name] (or plain [name]). *)
Definition has_tag (ns : option string) (name : string) (e : element) : bool :=
  bool_decide (el_ns e = ns) && String.eqb (el_local e) name.

(** The proper descendants of an element in document order. *)
Fixpoint descendants (e : element) : list element :=
  match e with
  | Element _ _ _ _ cs => flat_map (fun c => c :: descendants c) cs
  end.

(** [e.findall(".//" + name)]. *)
Definition findall_descendants (name : string) (e : element) : list element :=
  List.filter (has_tag None name) (descendants e).

(** [e.find(name)]: the first child with that tag. *)
Definition find_child (name : string) (e : element) : option element :=
  List.find (has_tag None name) (el_children e).

(** The node-set of [.//wms:Capability//wms:Layer[wms:Name]/wms:Name] below
    the context node, with [wms] bound to [uri], in document order: a
    [Name] element is selected when its parent is a [Layer] that lies
    strictly below a [Capability] strictly below the context node.
    [under_capability] and [parent_selected] record that for [e]. *)
Fixpoint xpath_names_at (uri : string) (under_capability parent_selected : bool)
    (e : element) : list element :=
  (if parent_selected && has_tag (Some uri) "Name" e then [e] else []) ++
  match e with
  | Element _ _ _ _ cs =>
      flat_map
        (xpath_names_at uri
           (under_capability || has_tag (Some uri) "Capability" e)
           (under_capability && has_tag (Some uri) "Layer" e))
        cs
  end.

Definition xpath_capability_layer_names (uri : string) (root : element)
  : list element :=
  flat_map (xpath_names_at uri false false) (el_children root).

(** The texts of the elements of [els] whose text is truthy. *)
Definition truthy_texts (els : list element) : list string :=
  flat_map (fun el => match el_text el with
                      | Some s => if negb (String.eqb s "") then [s] else []
                      | None => []
                      end) els.

(** The list [layers] that [get_wms_layers] builds from the parsed root:
    the XPath branch under a truthy default namespace, the [findall] branch
    otherwise. *)
Definition collect_namespaced (uri : string) (root : element) : list string :=
  truthy_texts (xpath_capability_layer_names uri root).

Definition collect_plain (root : element) : list string :=
  flat_map (fun layer =>
              match find_child "Name" layer with
              | Some name_el => truthy_texts [name_el]
              | None => []
              end)
    (findall_descendants "Layer" root).

Definition collect_layers (root : element) : list string :=
  match el_nsmap_default root with
  | Some uri =>
      if negb (String.eqb uri "") then collect_namespaced uri root
      else collect_plain root
  | None => collect_plain root
  end.

(** What [get_wms_layers] returns once the document is parsed. *)
Definition layers_of_root (root : element) : list string :=
  Dict.keys (Dict.fromkeys (collect_layers root)).

Section Client.

Context (W : World).
(** [lxml.etree.fromstring] with the recovering parser, on the UTF-8 bytes
    and on the text itself; [None] is what recovery yields when nothing of
    the input could be kept. *)
Context (fromstring_bytes fromstring_str : string -> result (option element)).
Local Open Scope client_scope.

(** [GugikHttpClient._is_internet_connected]: the socket probe, with every
    failure already turned into [False]. *)
Definition _is_internet_connected : M bool := fun s =>
  let up := connected W (count is_probe (trace s)) in
  (Ok up, log (EvProbe up) s).

(** [self.session.get(url=url, params=params, timeout=self.timeout)]. *)
Definition session_get (url : string) (p : params) : M response := fun s =>
  (http_get W (count is_request (trace s)) url p, log (EvGet url p) s).

(** [self.session.get(url=url, stream=True, timeout=60)]. *)
Definition session_get_stream (url : string) : M stream_response := fun s =>
  (http_get_stream W (count is_request (trace s)) url, log (EvGetStream url) s).

(** [time.sleep(seconds)]. *)
Definition sleep (seconds : Z) : M unit := fun s => (Ok tt, log (EvSleep seconds) s).

(** [response.close()]. *)
Definition response_close : M unit := fun s => (Ok tt, log EvClose s).

(** A disk operation: it raises [OSError] and changes nothing when the disk
    refuses it. *)
Definition disk_op (e : event) (effect : gmap string bytes -> gmap string bytes)
  : M unit := fun s =>
  if disk_ok W (count is_disk (trace s))
  then (Ok tt, {| files := effect (files s); trace := e :: trace s |})
  else (Raise OSError, log e s).

(** [os.path.exists(path)]. *)
Definition path_exists (path : string) : M bool := fun s =>
  (Ok (bool_decide (is_Some (files s !! path))), s).

(** [os.remove(path)]. *)
Definition os_remove (path : string) : M unit :=
  disk_op (EvRemove path) (delete path).

(** [os.makedirs(folder, exist_ok=True)]. *)
Definition os_makedirs (folder : string) : M unit :=
  disk_op (EvMakedirs folder) (fun fs => fs).

(** [open(path, 'wb')]: the file is created, or truncated. *)
Definition open_wb (path : string) : M unit :=
  disk_op (EvOpen path) (<[path := []]>).

(** [f.write(chunk)] on the file opened at [path]. *)
Definition file_write (path : string) (chunk : bytes) : M unit :=
  disk_op (EvWrite path chunk) (alter (fun old => old ++ chunk) path).

(** [GugikHttpClient._cleanup_file]. *)
Definition _cleanup_file (path : string) : M unit :=
  let* there := path_exists path in
  if there then os_remove path else ret tt.

(** *** The request engine *)

(** The [while attempt <= max_attempts] loop of [get_request].  The loop is
    run on [fuel]; [None] means the fuel ran out. *)
Fixpoint get_request_loop (fuel : nat) (p : params) (url : string)
    (max_attempts attempt : Z) (s : state)
  : option (result (bool * string) * state) :=
  if attempt <=? max_attempts then
    match fuel with
    | O => None
    | S fuel' =>
        match _is_internet_connected s with
        | (Raise e, s1) => Some (Raise e, s1)
        | (Ok up, s1) =>
            if negb up then Some (Ok (false, "Połączenie zostało przerwane"), s1)
            else
              match session_get url p s1 with
              | (Ok r, s2) =>
                  if status_code r =? 200 then Some (Ok (true, text r), s2)
                  else Some (Ok (false, "Błąd " +:+ Py.str_of_int (status_code r)), s2)
              | (Raise e, s2) =>
                  if is_ConnectionError e then
                    match sleep 2 s2 with
                    | (_, s3) => get_request_loop fuel' p url max_attempts (attempt + 1) s3
                    end
                  else Some (Raise e, s2)
              end
        end
    end
  else Some (Ok (false, "Przekroczono maksymalną liczbę prób"), s).

(** [GugikHttpClient.get_request]. *)
Definition get_request (p : params) (url : string) (max_attempts : Z) (s : state)
  : option (result (bool * string) * state) :=
  get_request_loop (Z.to_nat (max_attempts + 1)) p url max_attempts 0 s.

(** *** The streaming downloader *)

(** [cancel_check and cancel_check()]: the callback is polled when there is
    one. *)
Definition poll_cancel (cancel_check : option cancel_callback) : M bool :=
  match cancel_check with
  | None => ret false
  | Some ask => fun s =>
      let stop := ask (count is_cancel_check (trace s)) in
      (Ok stop, log (EvCancelCheck stop) s)
  end.

(** [if progress_callback: progress_callback(downloaded, total_size)]. *)
Definition report_progress (progress_callback : option progress_callback_t)
    (downloaded total_size : Z) : M unit :=
  match progress_callback with
  | Some _ => fun s => (Ok tt, log (EvProgress downloaded total_size) s)
  | None => ret tt
  end.

(** The [for chunk in response.iter_content(...)] loop of [download_file],
    together with the two statements that follow it. *)
Fixpoint iter_content_loop (path : string)
    (progress_callback : option progress_callback_t)
    (cancel_check : option cancel_callback)
    (total_size : Z) (fault : option exn)
    (chunks : list bytes) (downloaded : Z) : M (bool * string) :=
  match chunks with
  | [] =>
      match fault with
      | Some e => raise e
      | None => response_close >> ret (true, path)
      end
  | chunk :: rest =>
      let* stop := poll_cancel cancel_check in
      if stop then
        response_close >> _cleanup_file path >> ret (false, "Pobieranie anulowane")
      else
        let* up := (if downloaded mod 10000000 =? 0
               then _is_internet_connected else ret true) in
        if negb up then
          response_close >> _cleanup_file path >>
          ret (false, "Połączenie zostało przerwane")
        else
          file_write path chunk >>
          let downloaded := downloaded + Z.of_nat (length chunk) in
          report_progress progress_callback downloaded total_size >>
          iter_content_loop path progress_callback cancel_check total_size fault
            rest downloaded
  end.

(** The [try:] block of [download_file]. *)
Definition download_try (url dest_folder path : string)
    (progress_callback : option progress_callback_t)
    (cancel_check : option cancel_callback) : M (bool * string) :=
  let* resp := session_get_stream url in
  if stream_status resp =? 404 then ret (false, "Plik nie istnieje")
  else
    let* total_size := match stream_length resp with
                       | LengthAbsent => ret 0
                       | LengthInt n => ret n
                       | LengthGarbage => raise ValueError
                       end in
    _cleanup_file path >>
    os_makedirs dest_folder >>
    open_wb path >>
    iter_content_loop path progress_callback cancel_check total_size
      (stream_fault resp) (stream_chunks resp) 0.

(** Its two [except] clauses. *)
Definition download_except (path : string) (e : exn) : M (bool * string) :=
  if is_ConnectionError e || is_ChunkedEncodingError e then
    _cleanup_file path >> ret (false, "Połączenie zostało przerwane")
  else if is_IOError e then ret (false, "Błąd zapisu pliku")
  else raise e.

(** [GugikHttpClient.download_file]. *)
Definition download_file (url dest_folder : string)
    (progress_callback : option progress_callback_t)
    (cancel_check : option cancel_callback) : M (bool * string) :=
  let* file_name := lift (_generate_filename url) in
  let path := Py.path_join dest_folder file_name in
  try_except
    (download_try url dest_folder path progress_callback cancel_check)
    (download_except path).

(** *** The capability-document layer extractor *)

(** [GugikHttpClient.get_wms_layers]. *)
Definition get_wms_layers (url service : string) (s : state)
  : option (result (list string) * state) :=
  let p := [("SERVICE", service); ("REQUEST", "GetCapabilities");
            ("VERSION", "1.3.0")] in
  match get_request p url 3 s with
  | None => None
  | Some (Raise e, s1) => Some (Raise e, s1)
  | Some (Ok (ok, payload), s1) =>
      if negb ok || String.eqb payload "" then Some (Ok [], s1)
      else
        let parsed := match fromstring_bytes payload with
                      | Ok root => Ok root
                      | Raise _ => fromstring_str payload
                      end in
        match parsed with
        | Raise e => Some (Raise e, s1)
        | Ok None => Some (Raise AttributeError, s1)
        | Ok (Some root) => Some (Ok (layers_of_root root), s1)
        end
  end.

End Client.

(** ** Observations on states and traces *)

(** How often the prober, the transport, [time.sleep] and [f.write] were
    called. *)
Definition probes (s : state) : nat := count is_probe (trace s).

Definition requests (s : state) : nat := count is_request (trace s).

Definition sleeps (s : state) : nat := count is_sleep (trace s).

Definition writes (s : state) : nat := count is_write (trace s).

(** One turn of the loop that ends in a connection failure: probe, GET,
    two seconds of sleep, and on to the next attempt. *)
Definition after_failed_attempt (url : string) (p : params) (s : state) : state :=
  log (EvSleep 2) (log (EvGet url p) (log (EvProbe true) s)).

(** The turn that gets an answer: probe and GET. *)
Definition after_answer (url : string) (p : params) (s : state) : state :=
  log (EvGet url p) (log (EvProbe true) s).

(** The state after [f.write(chunk)] went through. *)
Definition wrote (path : string) (chunk : bytes) (s : state) : state :=
  {| files := alter (fun old => old ++ chunk) path (files s);
     trace := EvWrite path chunk :: trace s |}.

(** The failure texts of [download_file]. *)
Definition cancelled_msg : string := "Pobieranie anulowane".

Definition interrupted_msg : string := "Połączenie zostało przerwane".

Definition not_found_msg : string := "Plik nie istnieje".

Definition write_error_msg : string := "Błąd zapisu pliku".

(** A state with the given files and nothing done yet. *)
Definition fresh (fs : gmap string bytes) : state := State fs [].

(** ** Duplicate removal, as specified *)

(** Duplicates removed, the first occurrence kept, in the words of the
    specification. *)
Fixpoint dedup_keep_first (l : list string) : list string :=
  match l with
  | [] => []
  | x :: rest => x :: filter (fun y => y <> x) (dedup_keep_first rest)
  end.

(** ** The layer names, as specified *)

(** The element's tag is [{ns}name], or plain [name] without a namespace. *)
Definition named (ns : option string) (name : string) (e : element) : Prop :=
  el_ns e = ns /\ el_local e = name.

#[global] Instance named_dec ns name e : Decision (named ns name e).
Proof. unfold named. apply _. Defined.

(** An element and everything below it in document order, each with its
    ancestors up to the start of the walk, the parent first. *)
Fixpoint walk (ancestors : list element) (e : element)
  : list (list element * element) :=
  (ancestors, e) ::
  match e with
  | Element _ _ _ _ cs => flat_map (walk (e :: ancestors)) cs
  end.

(** The elements strictly below the root in document order; the root is
    not listed among the ancestors, so a child of the root has none. *)
Definition below_root (root : element) : list (list element * element) :=
  flat_map (walk []) (el_children root).

(** The text of an element, when it has one that is not empty. *)
Definition text_if_nonempty (e : element) : list string :=
  match el_text e with
  | Some t => if decide (t = EmptyString) then [] else [t]
  | None => []
  end.

(** A [Layer] element below the root, without a namespace. *)
Definition is_layer (x : list element * element) : Prop :=
  named None "Layer" x.2.

#[global] Instance is_layer_dec x : Decision (is_layer x).
Proof. unfold is_layer. apply _. Defined.

(** A [Name] element whose parent is a [Layer] element below the root,
    both without a namespace. *)
Definition name_of_a_layer (x : list element * element) : Prop :=
  named None "Name" x.2 /\
  match x.1 with
  | parent :: _ => named None "Layer" parent
  | [] => False
  end.

#[global] Instance name_of_a_layer_dec x : Decision (name_of_a_layer x).
Proof. unfold name_of_a_layer. destruct x as [[|parent above] e]; cbn; apply _. Defined.

(** A [Name] element whose parent is a [Layer] element that has a
    [Capability] element among its ancestors below the root, all three in
    the namespace [uri]. *)
Definition layer_below_capability (uri : string) (ancestors : list element) : Prop :=
  match ancestors with
  | parent :: above =>
      named (Some uri) "Layer" parent /\
      Exists (named (Some uri) "Capability") above
  | [] => False
  end.

#[global] Instance layer_below_capability_dec uri ancestors :
  Decision (layer_below_capability uri ancestors).
Proof. destruct ancestors as [|parent above]; cbn; apply _. Defined.

Definition name_of_a_capability_layer (uri : string)
    (x : list element * element) : Prop :=
  named (Some uri) "Name" x.2 /\ layer_below_capability uri x.1.

#[global] Instance name_of_a_capability_layer_dec uri x :
  Decision (name_of_a_capability_layer uri x).
Proof. unfold name_of_a_capability_layer. apply _. Defined.

(** The non-empty [Name] values of the layers below [Capability], in the
    document order of the [Name] elements. *)
Definition capability_layer_names (uri : string) (root : element) : list string :=
  flat_map (fun x => text_if_nonempty x.2)
    (filter (name_of_a_capability_layer uri) (below_root root)).

(** The non-empty [Name] values of the layers of a document without a
    default namespace, in the document order of the [Name] elements. *)
Definition layer_names (root : element) : list string :=
  flat_map (fun x => text_if_nonempty x.2)
    (filter name_of_a_layer (below_root root)).

(** The non-empty [Name] values in document order, in the words of the
    specification: the layers under [Capability] of a document with a
    default namespace, all layers of the others. *)
Definition names_in_document_order (root : element) : list string :=
  match el_nsmap_default root with
  | Some uri =>
      if decide (uri = EmptyString) then layer_names root
      else capability_layer_names uri root
  | None => layer_names root
  end.







(** An un-namespaced document without attributes, written out as text. *)
Fixpoint serialize (e : element) : string :=
  match e with
  | Element _ l _ t cs =>
      "<" +:+ l +:+ ">" +:+
      match t with Some t => t | None => EmptyString end +:+
      fold_right (fun c acc => serialize c +:+ acc) EmptyString cs +:+
      "</" +:+ l +:+ ">"
  end.

(** ** Concrete worlds, responses and documents *)

(** A network that is up, a transport that fails the first three GETs at
    connection level and then answers 200, a disk that works. *)
Definition flaky_world : World := {|
  connected := fun _ => true;
  http_get := fun k _ _ =>
    if (k <? 3)%nat then Raise ConnectionError else Ok (Response 200 "body");
  http_get_stream := fun _ _ => Raise ConnectionError;
  disk_ok := fun _ => true
|}.

(** A transport that answers every GET with status 500. *)
Definition broken_server : World := {|
  connected := fun _ => true;
  http_get := fun _ _ _ => Ok (Response 500 "Internal Server Error");
  http_get_stream := fun _ _ => Ok (StreamResponse 500 LengthAbsent [] None);
  disk_ok := fun _ => true
|}.

(** A network that is up, a disk that works, and a server that answers every
    streamed GET with [resp]. *)
Definition serving (resp : stream_response) : World := {|
  connected := fun _ => true;
  http_get := fun _ _ _ => Raise ConnectionError;
  http_get_stream := fun _ _ => Ok resp;
  disk_ok := fun _ => true
|}.

(** The same, on a disk that accepts two operations and refuses the rest. *)
Definition serving_on_full_disk (resp : stream_response) : World := {|
  connected := fun _ => true;
  http_get := fun _ _ _ => Raise ConnectionError;
  http_get_stream := fun _ _ => Ok resp;
  disk_ok := fun k => (k <? 2)%nat
|}.

Definition two_bytes : bytes := [Byte.x50; Byte.x4b].

Definition full_chunk : bytes := replicate (Z.to_nat 8192) Byte.x00.

Definition not_found : stream_response := StreamResponse 404 LengthAbsent [] None.

Definition empty_body : stream_response := StreamResponse 200 (LengthInt 0) [] None.

Definition small_body : stream_response :=
  StreamResponse 200 (LengthInt 4) [two_bytes; two_bytes] None.

(** 2442 chunks of 8192 bytes: 20,004,864 bytes. *)
Definition twenty_megabytes : stream_response :=
  StreamResponse 200 LengthAbsent (replicate 2442 full_chunk) None.

(** A cancellation check that says yes from its second call on. *)
Definition cancel_after_first : cancel_callback := fun k => (0 <? k)%nat.

Definition cancel_at_once : cancel_callback := fun _ => true.

(** A capability document with two layers named [A], one nested in the
    other, and the same document under a default namespace. *)
Definition nested_layers (ns : option string) : element :=
  Element ns "WMS_Capabilities" ns None
    [Element ns "Capability" ns None
       [Element ns "Layer" ns None
          [Element ns "Name" ns (Some "A") [];
           Element ns "Title" ns (Some "outer") [];
           Element ns "Layer" ns None
             [Element ns "Name" ns (Some "A") [];
              Element ns "Title" ns (Some "inner") []]]]].

(** A server that answers the capabilities request with a payload, and a
    parser that reads it as [nested_layers None]. *)
Definition capabilities_world : World := {|
  connected := fun _ => true;
  http_get := fun _ _ _ => Ok (Response 200 "<WMS_Capabilities/>");
  http_get_stream := fun _ _ => Raise ConnectionError;
  disk_ok := fun _ => true
|}.

Definition parse_nested (payload : string) : result (option element) :=
  Ok (Some (nested_layers None)).

(** A document whose outer layer carries its [Name] after the nested
    layer. *)
Definition name_after_nested_layer : element :=
  Element None "WMS_Capabilities" None None
    [Element None "Layer" None None
       [Element None "Layer" None None
          [Element None "Name" None (Some "B") []];
        Element None "Name" None (Some "A") []]].

(** A layer whose first [Name] is empty and whose second is not. *)
Definition empty_first_name : element :=
  Element None "WMS_Capabilities" None None
    [Element None "Layer" None None
       [Element None "Name" None None [];
        Element None "Name" None (Some "X") []]].

(** A server that answers every GET with status 200 and the given text. *)
Definition answering (payload : string) : World := {|
  connected := fun _ => true;
  http_get := fun _ _ _ => Ok (Response 200 payload);
  http_get_stream := fun _ _ => Raise ConnectionError;
  disk_ok := fun _ => true
|}.

(** A parser that reads the text of the documents in [known] and keeps
    nothing of any other payload. *)
Definition parse_among (known : list element) (payload : string)
  : result (option element) :=
  Ok (List.find (fun doc => String.eqb (serialize doc) payload) known).

(** A document with a [Service] section that carries a [Name] of its own,
    an outer layer whose [Title] precedes its [Name], and two nested
    layers. *)
Definition service_and_layers : element :=
  Element None "WMS_Capabilities" None None
    [Element None "Service" None None
       [Element None "Name" None (Some "WMS") [];
        Element None "Title" None (Some "Ortofotomapa") []];
     Element None "Capability" None None
       [Element None "Layer" None None
          [Element None "Title" None (Some "outer") [];
           Element None "Name" None (Some "A") [];
           Element None "Layer" None None
             [Element None "Name" None (Some "A") [];
              Element None "Title" None (Some "inner") []];
           Element None "Layer" None None
             [Element None "Name" None (Some "Raster") []]]]].

Definition known_documents : list element :=
  [nested_layers None; name_after_nested_layer; empty_first_name;
   service_and_layers].

(** ** The service check *)

(** [isinstance(e, requests.exceptions.Timeout)] for the exceptions that are
    no [ConnectionError]. *)
Definition is_Timeout (e : exn) : bool :=
  match e with ReadTimeout => true | _ => false end.

(** [GugikHttpClient.check_connection]: one GET of the service's front
    page, without parameters. *)
Definition check_connection (W : World) : M bool :=
  try_except
    (bind (session_get W "https://uldk.gugik.gov.pl/" [])
       (fun resp => ret (status_code resp =? 200)))
    (fun e => if is_Timeout e || is_ConnectionError e then ret false
              else raise e).

(** ** Further observations on runs *)

(** What [get_request] returns for an answer of the transport. *)
Definition outcome_of (r : response) : bool * string :=
  if status_code r =? 200 then (true, text r)
  else (false, "Błąd " +:+ Py.str_of_int (status_code r)).

Definition exhausted_msg : string := "Przekroczono maksymalną liczbę prób".

(** How often the cancellation check was polled. *)
Definition cancel_polls (s : state) : nat := count is_cancel_check (trace s).

(** The progress samples of a trace, oldest first. *)
Fixpoint progress_samples (tr : list event) : list (Z * Z) :=
  match tr with
  | [] => []
  | EvProgress downloaded total :: tr' => progress_samples tr' ++ [(downloaded, total)]
  | _ :: tr' => progress_samples tr'
  end.

(** The byte counts after each chunk, starting from [acc]. *)
Fixpoint running_totals (acc : Z) (chunks : list bytes) : list Z :=
  match chunks with
  | [] => []
  | chunk :: rest =>
      (acc + Z.of_nat (length chunk)) ::
      running_totals (acc + Z.of_nat (length chunk)) rest
  end.

(** A cancellation check, if there is one, that never asks to stop. *)
Definition never_cancels (cancel_check : option cancel_callback) : Prop :=
  match cancel_check with
  | None => True
  | Some ask => forall k, ask k = false
  end.

(** [s'] differs from [s] at most in the file at [path] and in the trace,
    and no request was made in between. *)
Definition frames (path : string) (s s' : state) : Prop :=
  (forall p, p <> path -> files s' !! p = files s !! p) /\
  requests s' = requests s.

(** The [total_size] that [download_file] reads off a response whose
    content-length [int] accepts. *)
Definition total_size_of (resp : stream_response) : Z :=
  match stream_length resp with
  | LengthInt n => n
  | _ => 0
  end.

(** ** More worlds, responses and documents *)

(** A network that the prober finds up once and down from then on, with a
    transport that never connects. *)
Definition dropping_world : World := {|
  connected := fun k => (k <? 1)%nat;
  http_get := fun _ _ _ => Raise ConnectionError;
  http_get_stream := fun _ _ => Raise ConnectionError;
  disk_ok := fun _ => true
|}.

(** A transport on which every GET times out while reading. *)
Definition timing_out_world : World := {|
  connected := fun _ => true;
  http_get := fun _ _ _ => Raise ReadTimeout;
  http_get_stream := fun _ _ => Raise ReadTimeout;
  disk_ok := fun _ => true
|}.

(** A server that answers the streamed GET with [resp] while the prober
    finds the network down. *)
Definition serving_offline (resp : stream_response) : World := {|
  connected := fun _ => false;
  http_get := fun _ _ _ => Raise ConnectionError;
  http_get_stream := fun _ _ => Ok resp;
  disk_ok := fun _ => true
|}.

Definition garbled_length : stream_response :=
  StreamResponse 200 LengthGarbage [two_bytes] None.

Definition undecodable_body : stream_response :=
  StreamResponse 200 (LengthInt 4) [two_bytes] (Some RequestException).

Definition broken_body : stream_response :=
  StreamResponse 200 (LengthInt 4) [two_bytes] (Some ChunkedEncodingError).

(** A parser whose recovery keeps nothing. *)
Definition parse_nothing (payload : string) : result (option element) :=
  Ok None.

(** A namespaced document with a layer right below the root and no
    [Capability] element. *)
Definition stray_layer : element :=
  Element (Some "http://www.opengis.net/wms") "WMS_Capabilities"
    (Some "http://www.opengis.net/wms") None
    [Element (Some "http://www.opengis.net/wms") "Layer"
       (Some "http://www.opengis.net/wms") None
       [Element (Some "http://www.opengis.net/wms") "Name"
          (Some "http://www.opengis.net/wms") (Some "A") []]].

(** * Properties of the Python primitives *)

Section StringFacts.

Lemma split_not_nil sep s : Py.split sep s <> [].
Proof.
  induction s as [|c s IH]; simpl; [discriminate|].
  destruct (Ascii.eqb c sep); [discriminate|].
  destruct (Py.split sep s); discriminate.
Qed.

Lemma nth_error_last {A} (l : list A) (d : A) :
  l <> [] -> nth_error l (Nat.pred (length l)) = Some (List.last l d).
Proof.
  induction l as [|x l IH]; [congruence|]; intros _.
  destruct l as [|y l]; [reflexivity|].
  specialize (IH ltac:(discriminate)). exact IH.
Qed.

Lemma getitem_last {A} (l : list A) (d : A) :
  l <> [] -> Py.getitem l (-1) = Ok (List.last l d).
Proof.
  intros Hl. unfold Py.getitem.
  assert (Hlen : (0 < length l)%nat) by (destruct l; [congruence | simpl; lia]).
  replace (-1 <? 0) with true by reflexivity.
  replace ((-1 + Z.of_nat (length l) <? 0)
           || (Z.of_nat (length l) <=? -1 + Z.of_nat (length l))) with false
    by (symmetry; apply orb_false_iff; split; [apply Z.ltb_ge | apply Z.leb_gt]; lia).
  replace (Z.to_nat (-1 + Z.of_nat (length l))) with (Nat.pred (length l)) by lia.
  now rewrite (nth_error_last l d Hl).
Qed.

Lemma getitem_nonneg {A} (l : list A) (i : nat) :
  Py.getitem l (Z.of_nat i) =
  match nth_error l i with Some x => Ok x | None => Raise IndexError end.
Proof.
  unfold Py.getitem.
  assert (H0 : (Z.of_nat i <? 0) = false) by (apply Z.ltb_ge; lia).
  cbv zeta. rewrite H0. cbv iota. rewrite H0, Nat2Z.id.
  destruct (Z.of_nat (length l) <=? Z.of_nat i) eqn:Hle; simpl.
  - apply Z.leb_le in Hle.
    assert (Hn : nth_error l i = None) by (apply nth_error_None; lia).
    now rewrite Hn.
  - reflexivity.
Qed.

Lemma getitem_in_range {A} (l : list A) (i : nat) :
  (i < length l)%nat -> exists x, nth_error l i = Some x /\ Py.getitem l (Z.of_nat i) = Ok x.
Proof.
  intros Hi. rewrite getitem_nonneg.
  destruct (nth_error l i) as [x|] eqn:Hx; [eauto|].
  apply nth_error_None in Hx. lia.
Qed.

Lemma getitem_out_of_range {A} (l : list A) (i : nat) :
  (length l <= i)%nat -> Py.getitem l (Z.of_nat i) = Raise IndexError.
Proof.
  intros Hi. rewrite getitem_nonneg.
  now replace (nth_error l i) with (@None A) by (symmetry; apply nth_error_None; lia).
Qed.

(** Searching for a single character. *)
Lemma contains_char_app c a b :
  Py.contains (String c EmptyString) (a +:+ b) =
  Py.contains (String c EmptyString) a || Py.contains (String c EmptyString) b.
Proof.
  induction a as [|x a IH]; simpl.
  - reflexivity.
  - rewrite IH. destruct (Ascii.eqb c x); simpl; [reflexivity|].
    destruct (a +:+ b), a; reflexivity.
Qed.

Lemma replace_removes old new s :
  old <> new -> Py.contains (String old EmptyString) (Py.replace old new s) = false.
Proof.
  intros Hne. induction s as [|x s IH]; simpl; [reflexivity|].
  rewrite IH. destruct (Ascii.eqb x old) eqn:Hx.
  - replace (Ascii.eqb old new) with false
      by (symmetry; now apply Ascii.eqb_neq).
    reflexivity.
  - rewrite Ascii.eqb_sym, Hx. reflexivity.
Qed.

Lemma endswith_refl suf : Py.endswith suf suf = true.
Proof. destruct suf; simpl; [reflexivity|]. now rewrite Ascii.eqb_refl, String.eqb_refl. Qed.

Lemma endswith_app suf p s :
  Py.endswith suf s = true -> Py.endswith suf (p +:+ s) = true.
Proof.
  intros Hs. induction p as [|x p IH]; simpl; [exact Hs|].
  rewrite IH. apply orb_true_r.
Qed.

(** [endswith] is what it says: the string is a prefix followed by [suf]. *)
Lemma endswith_spec suf s :
  Py.endswith suf s = true <-> exists p, s = p +:+ suf.
Proof.
  split.
  - induction s as [|x s IH]; simpl.
    + rewrite orb_false_r. intros H. exists EmptyString.
      destruct suf; [reflexivity | discriminate].
    + intros H. apply orb_true_iff in H as [H|H].
      * exists EmptyString. simpl. symmetry.
        change ((String x s =? suf)%string = true) in H.
        now apply String.eqb_eq in H.
      * destruct (IH H) as [p ->]. now exists (String x p).
  - intros [p ->]. apply endswith_app, endswith_refl.
Qed.

End StringFacts.

(** * The filename classifier *)

Section Classifier.

(** The first two statements of [_generate_filename] never raise and compute
    the baseline of the specification. *)
Lemma _generate_filename_baseline url :
  _generate_filename url = prefix_rules url (baseline url).
Proof.
  unfold _generate_filename, baseline, last_segment.
  rewrite (getitem_last _ EmptyString (split_not_nil _ url)). simpl rbind.
  destruct (Py.contains "?" _); [|reflexivity].
  now rewrite (getitem_last _ EmptyString (split_not_nil _ _)).
Qed.

(** Case analysis along the rule chain. *)
Ltac rule_chain url :=
  unfold prefix_rules;
  repeat match goal with
    | |- context [if Py.contains ?w url then _ else _] =>
        let H := fresh "Hw" in
        destruct (Py.contains w url) eqn:H; cbn [andb orb negb]
    | |- context [if Py.contains ?w url && _ then _ else _] =>
        let H := fresh "Hw" in
        destruct (Py.contains w url) eqn:H; cbn [andb orb negb]
    end;
  cbn [andb orb negb].

(** The [len(url.split('/')) == 9] test: inside it index 6 exists. *)
Ltac nine_segments url :=
  let Hlen := fresh "Hlen" in
  destruct (Z.of_nat (length (Py.split "/" url)) =? 9) eqn:Hlen;
  [ apply Z.eqb_eq in Hlen;
    let x := fresh "seg" in let Hx := fresh "Hseg" in let Hg := fresh "Hget" in
    destruct (getitem_in_range (Py.split "/" url) 6 ltac:(lia)) as (x & Hx & Hg);
    change (Z.of_nat 6) with 6 in Hg; rewrite Hg; cbn [rbind]
  | ].

Ltac index_segments url :=
  repeat match goal with
    | |- context [Py.getitem (Py.split "/" url) ?i] =>
        let n := eval cbv in (Z.to_nat i) in
        change i with (Z.of_nat n);
        rewrite (getitem_nonneg (Py.split "/" url) n)
    end.

(** All branches of the chain at once: split on every rule word, on the
    nine-segment test and on the indexed segment. *)
Ltac all_rules url :=
  unfold copied_segment, short_for_rule, copied_index;
  rule_chain url;
  try (lazymatch goal with
       | |- context [length (Py.split "/" url)] => idtac
       end;
       let H9 := fresh "H9" in
       destruct (Nat.eqb_spec (length (Py.split "/" url)) 9) as [H9|H9];
       [ try change (Z.of_nat (length (Py.split "/" url)) =? 9)
           with (Z.of_nat (length (Py.split "/" url)) =? Z.of_nat 9);
         rewrite ?H9; try change (Z.of_nat 9 =? Z.of_nat 9) with true
       | try replace (Z.of_nat (length (Py.split "/" url)) =? 9) with false
           by (symmetry; apply Z.eqb_neq; lia) ];
       cbv iota);
  index_segments url;
  try match goal with
    | |- context [nth_error ?l ?i] =>
        let Hn := fresh "Hn" in
        destruct (nth_error l i) eqn:Hn; cbn [rbind];
        [ assert (i < length l)%nat by (apply nth_error_Some; congruence)
        | apply nth_error_None in Hn ]
    end.

(** What the classifier does on every URL: it returns a filename unless the
    selected rule indexes a segment the URL does not have. *)
Lemma prefix_rules_outcome url file_name :
  match prefix_rules url file_name with
  | Ok _ => short_for_rule url = false
  | Raise e => e = IndexError /\ short_for_rule url = true
  end.
Proof.
  all_rules url; try reflexivity;
    first [ apply Nat.leb_gt; lia
          | split; [reflexivity | apply Nat.leb_le; lia] ].
Qed.

Lemma _generate_filename_outcome url :
  match _generate_filename url with
  | Ok _ => short_for_rule url = false
  | Raise e => e = IndexError /\ short_for_rule url = true
  end.
Proof. rewrite _generate_filename_baseline. apply prefix_rules_outcome. Qed.

(** The chain only ever puts text in front of [file_name]. *)
Lemma prefix_rules_endswith url file_name f suf :
  prefix_rules url file_name = Ok f ->
  Py.endswith suf file_name = true -> Py.endswith suf f = true.
Proof.
  intros Hf Hsuf. revert Hf.
  all_rules url; intros [= <-]; repeat first [exact Hsuf | apply endswith_app].
Qed.

(** A character absent from [file_name] can only come in with the copied
    segment. *)
Lemma prefix_rules_equals_sign url file_name f :
  prefix_rules url file_name = Ok f ->
  Py.contains "=" f =
    Py.contains "=" file_name ||
    match copied_segment url with
    | Some seg => Py.contains "=" seg
    | None => false
    end.
Proof.
  all_rules url; intros [= <-]; rewrite ?contains_char_app;
    repeat match goal with
      | |- context [Py.contains "=" ?x] =>
          is_var x; destruct (Py.contains "=" x)
      end;
    reflexivity.
Qed.

Lemma short_for_rule_long url :
  (6 <= length (Py.split "/" url))%nat -> short_for_rule url = false.
Proof.
  intros Hlen. unfold short_for_rule, copied_index.
  destruct (Nat.eqb_spec (length (Py.split "/" url)) 9) as [H9|H9];
    repeat match goal with
      | |- context [if ?c then _ else _] => destruct c
      end; try reflexivity; apply Nat.leb_gt; lia.
Qed.

Lemma _generate_filename_short url :
  short_for_rule url = true -> _generate_filename url = Raise IndexError.
Proof.
  intros Hs. pose proof (_generate_filename_outcome url) as H.
  destruct (_generate_filename url) as [f|e]; [congruence|].
  now destruct H as [-> _].
Qed.

(** C5, as the specification states it, fails: a URL that selects the
    archive rule but has only five segments makes the classifier raise. *)
Lemma classifier_not_total :
  ~ (forall url, exists f, _generate_filename url = Ok f).
Proof.
  intros H. destruct (H "https://host/Archiwum/bdot10k.zip") as [f Hf].
  vm_compute in Hf. discriminate.
Qed.

(** C5, amended: the classifier is a function of the URL alone.  It returns
    a filename on every URL except those on which the selected rule indexes
    a segment the URL lacks ([short_for_rule]: the [Archiwum]+[bdot10k] rule
    with fewer than 6 segments, the [bdoo] or [ZestawieniaZbiorczeEGiB] rule
    with fewer than 5); on those it raises [IndexError]; and a URL of six or
    more segments always gets a filename. *)
Theorem classifier_total_unless_short url :
  (short_for_rule url = false -> exists f, _generate_filename url = Ok f) /\
  (short_for_rule url = true -> _generate_filename url = Raise IndexError) /\
  ((6 <= length (Py.split "/" url))%nat ->
   exists f, _generate_filename url = Ok f) /\
  (short_for_rule url = true <->
   Py.contains "Budynki3D" url = false /\ Py.contains "PRG" url = false /\
   ((Py.contains "bdot10k" url = true /\ Py.contains "Archiwum" url = true /\
     (length (Py.split "/" url) < 6)%nat) \/
    (Py.contains "bdot10k" url = false /\
     (Py.contains "bdoo" url = true \/
      Py.contains "ZestawieniaZbiorczeEGiB" url = true) /\
     (length (Py.split "/" url) < 5)%nat))).
Proof.
  assert (Hok : short_for_rule url = false ->
                exists f, _generate_filename url = Ok f).
  { intros Hs. pose proof (_generate_filename_outcome url) as H.
    destruct (_generate_filename url) as [f|e]; [eauto|].
    destruct H as [_ H]. congruence. }
  split; [exact Hok|].
  split; [apply _generate_filename_short|].
  split; [intros Hlen; apply Hok, short_for_rule_long, Hlen|].
  unfold short_for_rule, copied_index.
  destruct (Py.contains "Budynki3D" url), (Py.contains "PRG" url),
    (Py.contains "bdot10k" url), (Py.contains "Archiwum" url),
    (Py.contains "bdoo" url), (Py.contains "ZestawieniaZbiorczeEGiB" url);
    cbn [andb negb];
    repeat match goal with
           | |- context [Nat.eqb ?a ?b] => destruct (Nat.eqb_spec a b)
           end;
    rewrite ?Nat.leb_le; split; intros H;
    try discriminate; try lia; intuition (try discriminate; try lia).
Qed.

Lemma classifier_total_unless_short_witness :
  (exists f, _generate_filename "https://host/a/Archiwum/bdot10k/2020/x.zip" = Ok f) /\
  _generate_filename "https://host/Archiwum/bdot10k.zip" = Raise IndexError /\
  (exists f, _generate_filename "https://host/a/b/bdoo.zip" = Ok f).
Proof.
  split; [|split].
  - apply (proj1 (classifier_total_unless_short
                    "https://host/a/Archiwum/bdot10k/2020/x.zip")).
    reflexivity.
  - apply (proj1 (proj2 (classifier_total_unless_short
                           "https://host/Archiwum/bdot10k.zip"))).
    reflexivity.
  - apply (proj1 (proj2 (proj2 (classifier_total_unless_short
                                  "https://host/a/b/bdoo.zip")))).
    vm_compute. lia.
Defined.

(** C6, as stated, fails: the higher-priority [PRG] rule wins over the
    archive rule. *)
Lemma archive_rule_not_always_taken :
  ~ (forall url,
       Py.contains "bdot10k" url = true -> Py.contains "Archiwum" url = true ->
       exists seg,
         nth_error (Py.split "/" url) 5 = Some seg /\
         _generate_filename url =
           Ok ("archiwalne_bdot10k_" +:+ seg +:+ "_" +:+ baseline url)).
Proof.
  intros H.
  destruct (H "https://x/PRG/Archiwum/bdot10k/a/b/c" eq_refl eq_refl)
    as (seg & Hseg & Hf).
  vm_compute in Hseg. injection Hseg as <-.
  vm_compute in Hf. discriminate.
Qed.

(** C6, amended: a URL containing both [bdot10k] and [Archiwum], neither
    [Budynki3D] nor [PRG], and a segment at index 5, is named by the archive
    rule: [archiwalne_bdot10k_<segment 5>_<baseline>], which does not start
    with the plain [bdot10k_] prefix. *)
Theorem archive_rule_taken url seg :
  Py.contains "bdot10k" url = true -> Py.contains "Archiwum" url = true ->
  Py.contains "Budynki3D" url = false -> Py.contains "PRG" url = false ->
  nth_error (Py.split "/" url) 5 = Some seg ->
  _generate_filename url =
    Ok ("archiwalne_bdot10k_" +:+ seg +:+ "_" +:+ baseline url) /\
  Py.startswith "bdot10k_"
    ("archiwalne_bdot10k_" +:+ seg +:+ "_" +:+ baseline url) = false.
Proof.
  intros Hb Ha HB HP Hseg. split; [|reflexivity].
  rewrite _generate_filename_baseline. unfold prefix_rules.
  rewrite HB, HP, Hb, Ha. cbn [andb negb].
  change 5 with (Z.of_nat 5). rewrite getitem_nonneg, Hseg. reflexivity.
Qed.

Lemma archive_rule_taken_witness :
  _generate_filename "https://host/a/Archiwum/bdot10k/2020/x.zip" =
    Ok "archiwalne_bdot10k_bdot10k_x.zip".
Proof.
  apply (archive_rule_taken "https://host/a/Archiwum/bdot10k/2020/x.zip" "bdot10k");
    reflexivity.
Defined.

(** C7, as stated, fails: a [?] before the last [/] does not trigger the
    query-string rewrite. *)
Lemma question_mark_not_enough :
  ~ (forall url f,
       Py.contains "?" url = true -> _generate_filename url = Ok f ->
       Py.endswith ".zip" f = true /\ Py.contains "=" f = false).
Proof.
  intros H. destruct (H "http://a?b=c/d" "d" eq_refl eq_refl) as [Hz _].
  vm_compute in Hz. discriminate.
Qed.

(** Even with the [?] in the last segment a copied segment may carry [=]. *)
Lemma copied_segment_keeps_equals :
  Py.contains "?" (last_segment "/" "a/b/c/d/e/x=y/Archiwumbdot10k?q=1") = true /\
  _generate_filename "a/b/c/d/e/x=y/Archiwumbdot10k?q=1" =
    Ok "archiwalne_bdot10k_x=y_q_1.zip".
Proof. split; reflexivity. Qed.

(** C7, amended: when the final [/]-delimited segment of the URL contains a
    [?], every filename the classifier returns ends in [.zip]; it contains
    a [=] exactly when the URL segment its rule copies into the name (index 6
    for a nine-segment [Budynki3D] URL, 5 for the archive rule, 4 for [bdoo]
    and [ZestawieniaZbiorczeEGiB]) contains one. *)
Theorem query_filename_is_zip url f :
  Py.contains "?" (last_segment "/" url) = true ->
  _generate_filename url = Ok f ->
  Py.endswith ".zip" f = true /\
  Py.contains "=" f =
    match copied_segment url with
    | Some seg => Py.contains "=" seg
    | None => false
    end.
Proof.
  intros Hq. rewrite _generate_filename_baseline.
  unfold baseline. rewrite Hq. intros Hf. split.
  - apply (prefix_rules_endswith _ _ _ _ Hf), endswith_app, endswith_refl.
  - rewrite (prefix_rules_equals_sign _ _ _ Hf), contains_char_app.
    rewrite replace_removes by discriminate. reflexivity.
Qed.

Lemma query_filename_is_zip_witness :
  Py.endswith ".zip" "PRG_id_7.zip" = true /\ Py.contains "=" "PRG_id_7.zip" = false.
Proof.
  exact (query_filename_is_zip "https://host/PRG/get?id=7" "PRG_id_7.zip"
           eq_refl eq_refl).
Defined.

(** C10: a URL with [Budynki3D] but neither [LOD1] nor [LOD2], and not of
    exactly nine segments, gets the bare baseline filename, whatever other
    rule words ([PRG], [bdot10k], [bdoo], [ZestawieniaZbiorczeEGiB],
    [osnowa]) it contains: the [Budynki3D] rule ends the chain. *)
Theorem budynki3d_without_lod_is_baseline url :
  Py.contains "Budynki3D" url = true ->
  Py.contains "LOD1" url = false -> Py.contains "LOD2" url = false ->
  length (Py.split "/" url) <> 9%nat ->
  _generate_filename url = Ok (baseline url).
Proof.
  intros HB H1 H2 Hlen. rewrite _generate_filename_baseline.
  unfold prefix_rules. rewrite HB, H1, H2.
  replace (Z.of_nat (length (Py.split "/" url)) =? 9) with false
    by (symmetry; apply Z.eqb_neq; lia).
  reflexivity.
Qed.

Lemma budynki3d_without_lod_is_baseline_witness :
  _generate_filename
    "https://x/Budynki3D/PRG/bdot10k/bdoo/ZestawieniaZbiorczeEGiB/osnowa/f.zip"
  = Ok "f.zip".
Proof.
  apply (budynki3d_without_lod_is_baseline
    "https://x/Budynki3D/PRG/bdot10k/bdoo/ZestawieniaZbiorczeEGiB/osnowa/f.zip");
    [reflexivity | reflexivity | reflexivity | vm_compute; lia].
Defined.

(** ** Further properties of the classifier *)

Lemma query_filename_baseline_clean url f :
  Py.contains "?" (last_segment "/" url) = true ->
  _generate_filename url = Ok f ->
  Py.endswith ".zip" f = true /\
  Py.contains "=" f =
    match copied_segment url with
    | Some seg => Py.contains "=" seg
    | None => false
    end.
Proof.
  intros Hq. rewrite _generate_filename_baseline.
  unfold baseline. rewrite Hq. intros Hf. split.
  - apply (prefix_rules_endswith _ _ _ _ Hf), endswith_app, endswith_refl.
  - rewrite (prefix_rules_equals_sign _ _ _ Hf), contains_char_app.
    rewrite replace_removes by discriminate. reflexivity.
Qed.

(** The pieces of a split do not contain the separator, and contain no
    character the string did not contain. *)
Lemma split_pieces_no_sep sep s :
  Forall (fun piece => Py.contains (String sep EmptyString) piece = false)
    (Py.split sep s).
Proof.
  induction s as [|c s IH]; cbn [Py.split]; [now repeat constructor|].
  destruct (Ascii.eqb_spec c sep) as [->|Hne].
  - constructor; [reflexivity | exact IH].
  - destruct (Py.split sep s) as [|h t] eqn:Hsplit;
      [now apply split_not_nil in Hsplit|].
    apply Forall_cons_iff in IH as [Hh Ht]. constructor; [|exact Ht].
    cbn. rewrite Hh.
    replace (Ascii.eqb sep c) with false
      by (symmetry; apply Ascii.eqb_neq; congruence).
    now destruct h.
Qed.

Lemma split_pieces_chars sep c s :
  Py.contains (String c EmptyString) s = false ->
  Forall (fun piece => Py.contains (String c EmptyString) piece = false)
    (Py.split sep s).
Proof.
  induction s as [|x s IH]; cbn [Py.split]; [now repeat constructor|].
  intros Hs. assert (Hxs : Ascii.eqb c x = false /\
                           Py.contains (String c EmptyString) s = false).
  { cbn in Hs. destruct (Ascii.eqb c x); [now destruct s|].
    split; [reflexivity|]. destruct s; exact Hs. }
  destruct Hxs as [Hx Hs']. specialize (IH Hs').
  destruct (Ascii.eqb x sep).
  - constructor; [reflexivity | exact IH].
  - destruct (Py.split sep s) as [|h t] eqn:Hsplit;
      [now apply split_not_nil in Hsplit|].
    apply Forall_cons_iff in IH as [Hh Ht]. constructor; [|exact Ht].
    cbn. rewrite Hh, Hx. now destruct h.
Qed.

Lemma Forall_last_segment (P : string -> Prop) sep s :
  Forall P (Py.split sep s) -> P (last_segment sep s).
Proof.
  unfold last_segment. pose proof (split_not_nil sep s) as Hne.
  induction 1 as [|x l Hx Hl IH]; [congruence|].
  destruct l as [|y l]; [exact Hx|]. apply IH. discriminate.
Qed.

Lemma replace_keeps_others c old new s :
  c <> new ->
  Py.contains (String c EmptyString) s = false ->
  Py.contains (String c EmptyString) (Py.replace old new s) = false.
Proof.
  intros Hnew. induction s as [|x s IH]; cbn; [reflexivity|].
  destruct (Ascii.eqb_spec c x) as [->|Hx].
  { now destruct s. }
  intros Hs. assert (Hs' : Py.contains (String c EmptyString) s = false)
    by (destruct s; exact Hs).
  rewrite (IH Hs').
  destruct (Ascii.eqb x old).
  - replace (Ascii.eqb c new) with false by (symmetry; now apply Ascii.eqb_neq).
    now destruct (Py.replace old new s).
  - replace (Ascii.eqb c x) with false by (symmetry; now apply Ascii.eqb_neq).
    now destruct (Py.replace old new s).
Qed.

Lemma baseline_no_slash url : Py.contains "/" (baseline url) = false.
Proof.
  unfold baseline.
  assert (Hseg : Py.contains "/" (last_segment "/" url) = false)
    by (apply (Forall_last_segment (fun p => Py.contains "/" p = false) "/"),
          split_pieces_no_sep).
  destruct (Py.contains "?" (last_segment "/" url)); [|exact Hseg].
  rewrite contains_char_app. apply orb_false_iff. split; [|reflexivity].
  apply replace_keeps_others; [discriminate|].
  apply (Forall_last_segment (fun p => Py.contains "/" p = false) "?").
  now apply split_pieces_chars.
Qed.

Lemma prefix_rules_slash url file_name f :
  prefix_rules url file_name = Ok f ->
  Py.contains "/" file_name = false -> Py.contains "/" f = false.
Proof.
  intros Hf Hname. revert Hf.
  pose proof (split_pieces_no_sep "/" url) as Hsegs.
  all_rules url; intros [= <-]; rewrite ?contains_char_app, ?Hname;
    try match goal with
      | Hn : nth_error _ _ = Some ?seg |- _ =>
          apply nth_error_In in Hn;
          rewrite Forall_forall in Hsegs; apply list_elem_of_In in Hn;
          rewrite (Hsegs seg Hn)
      end;
    reflexivity.
Qed.

(** X19: a filename the classifier returns never contains a [/]: it is a
    single path component, and [os.path.join] puts it right into the
    destination folder. *)
Theorem filename_is_one_component url dest f :
  _generate_filename url = Ok f ->
  Py.contains "/" f = false /\
  Py.path_join dest f =
    if String.eqb dest "" || Py.endswith "/" dest then dest +:+ f
    else dest +:+ "/" +:+ f.
Proof.
  rewrite _generate_filename_baseline. intros Hf.
  assert (Hslash : Py.contains "/" f = false)
    by (apply (prefix_rules_slash _ _ _ Hf), baseline_no_slash).
  split; [exact Hslash|]. unfold Py.path_join.
  destruct f as [|c f]; [reflexivity|].
  cbn [Py.contains Py.startswith] in Hslash. cbn [Py.startswith].
  destruct (Ascii.eqb "/" c); [discriminate Hslash | reflexivity].
Qed.

(** X20: the rules only ever put text in front: every filename returned is
    some prefix followed by the baseline name. *)
Theorem filename_ends_with_baseline url f :
  _generate_filename url = Ok f ->
  exists prefix, f = prefix +:+ baseline url.
Proof.
  rewrite _generate_filename_baseline. intros Hf.
  apply endswith_spec, (prefix_rules_endswith _ _ _ _ Hf), endswith_refl.
Qed.

(** X21: [bdot10k] shadows the rules below it: a URL that contains
    [bdot10k], and neither [Budynki3D] nor [PRG], is named by the plain or
    by the archive rule, never by the [bdoo], [ZestawieniaZbiorczeEGiB] or
    [osnowa] rule, whichever of these words it contains as well. *)
Theorem bdot10k_shadows_later_rules url f :
  Py.contains "bdot10k" url = true ->
  Py.contains "Budynki3D" url = false -> Py.contains "PRG" url = false ->
  _generate_filename url = Ok f ->
  (Py.contains "Archiwum" url = false /\ f = "bdot10k_" +:+ baseline url) \/
  (Py.contains "Archiwum" url = true /\
   exists seg, nth_error (Py.split "/" url) 5 = Some seg /\
               f = "archiwalne_bdot10k_" +:+ seg +:+ "_" +:+ baseline url).
Proof.
  intros Hb HB HP. rewrite _generate_filename_baseline. unfold prefix_rules.
  rewrite HB, HP, Hb. destruct (Py.contains "Archiwum" url); cbn [andb negb].
  - change 5 with (Z.of_nat 5). rewrite getitem_nonneg.
    destruct (nth_error (Py.split "/" url) 5) as [seg|]; [|discriminate].
    intros [= <-]. right. eauto.
  - intros [= <-]. now left.
Qed.

(** X22: the query rewrite keeps what follows the last [?]: when the last
    segment of the URL contains a [?] and the rule copies no segment, the
    name returned contains neither [?] nor [=]. *)
Theorem query_filename_has_no_query_marks url f :
  Py.contains "?" (last_segment "/" url) = true ->
  copied_segment url = None ->
  _generate_filename url = Ok f ->
  Py.contains "?" f = false /\ Py.contains "=" f = false.
Proof.
  intros Hq Hcopy Hf.
  split.
  2:{ destruct (query_filename_baseline_clean url f Hq Hf) as [_ He].
      now rewrite He, Hcopy. }
  revert Hf. rewrite _generate_filename_baseline.
  assert (Hbase : Py.contains "?" (baseline url) = false).
  { unfold baseline. rewrite Hq, contains_char_app.
    apply orb_false_iff. split; [|reflexivity].
    apply replace_keeps_others; [discriminate|].
    apply (Forall_last_segment (fun p => Py.contains "?" p = false) "?"),
      split_pieces_no_sep. }
  revert Hcopy.
  all_rules url; intros Hcopy; try discriminate Hcopy; intros [= <-];
    rewrite ?contains_char_app, ?Hbase; reflexivity.
Qed.

End Classifier.

(** * The request engine *)

Section RequestEngine.

Context (W : World).

Lemma loop_retry fuel p url max_attempts attempt s :
  attempt <= max_attempts ->
  connected W (probes s) = true ->
  http_get W (requests s) url p = Raise ConnectionError ->
  get_request_loop W (S fuel) p url max_attempts attempt s =
  get_request_loop W fuel p url max_attempts (attempt + 1)
    (after_failed_attempt url p s).
Proof.
  intros Hle Hup Hget. cbn [get_request_loop].
  replace (attempt <=? max_attempts) with true by (symmetry; now apply Z.leb_le).
  unfold _is_internet_connected, session_get. fold (probes s). rewrite Hup.
  cbn [negb trace log]. fold (requests s).
  change (count is_request (EvProbe true :: trace s)) with (requests s).
  now rewrite Hget.
Qed.

Lemma loop_answer fuel p url max_attempts attempt s r :
  attempt <= max_attempts ->
  connected W (probes s) = true ->
  http_get W (requests s) url p = Ok r ->
  get_request_loop W (S fuel) p url max_attempts attempt s =
  Some (Ok (if status_code r =? 200 then (true, text r)
            else (false, "Błąd " +:+ Py.str_of_int (status_code r))),
        after_answer url p s).
Proof.
  intros Hle Hup Hget. cbn [get_request_loop].
  replace (attempt <=? max_attempts) with true by (symmetry; now apply Z.leb_le).
  unfold _is_internet_connected, session_get. fold (probes s). rewrite Hup.
  cbn [negb trace log].
  change (count is_request (EvProbe true :: trace s)) with (requests s).
  rewrite Hget. now destruct (status_code r =? 200).
Qed.

Lemma loop_exhausted fuel p url max_attempts attempt s :
  max_attempts < attempt ->
  get_request_loop W fuel p url max_attempts attempt s =
  Some (Ok (false, "Przekroczono maksymalną liczbę prób"), s).
Proof.
  intros Hlt. destruct fuel; cbn [get_request_loop];
    now replace (attempt <=? max_attempts) with false
      by (symmetry; now apply Z.leb_gt).
Qed.

(** The loop always comes back, and it issues at most one GET per unit of
    the remaining budget [max_attempts + 1 - attempt]. *)
Ltac count_up :=
  unfold requests, count;
  cbn [trace files log List.filter is_request length];
  repeat split; (reflexivity || lia).

Lemma get_request_loop_bound fuel p url max_attempts attempt s :
  (Z.to_nat (max_attempts + 1 - attempt) <= fuel)%nat ->
  exists r s',
    get_request_loop W fuel p url max_attempts attempt s = Some (r, s') /\
    (requests s <= requests s')%nat /\
    (requests s' <= requests s + Z.to_nat (max_attempts + 1 - attempt))%nat /\
    files s' = files s.
Proof.
  revert attempt s. induction fuel as [|fuel IH]; intros attempt s Hfuel.
  - rewrite loop_exhausted by lia. eexists _, _. repeat split; (reflexivity || lia).
  - destruct (Z.leb_spec attempt max_attempts) as [Hle|Hgt].
    2:{ rewrite loop_exhausted by lia. eexists _, _. repeat split; (reflexivity || lia). }
    cbn [get_request_loop].
    replace (attempt <=? max_attempts) with true by (symmetry; now apply Z.leb_le).
    unfold _is_internet_connected, session_get.
    destruct (connected W _); cbn [negb].
    2:{ eexists _, _. split; [reflexivity|]. count_up. }
    destruct (http_get W _ url p) as [r|e].
    { destruct (status_code r =? 200); eexists _, _;
        (split; [reflexivity|]); count_up. }
    destruct (is_ConnectionError e).
    2:{ eexists _, _. split; [reflexivity|]. count_up. }
    cbn [sleep].
    edestruct (IH (attempt + 1)) as (r & s' & -> & Hlo & Hhi & Hfs); [lia|].
    eexists _, _. split; [reflexivity|].
    unfold requests, count in *.
    cbn [trace files log List.filter is_request length] in *.
    repeat split; [lia| |exact Hfs].
    replace (Z.to_nat (max_attempts + 1 - attempt))
      with (S (Z.to_nat (max_attempts + 1 - (attempt + 1)))) by lia.
    lia.
Qed.

Lemma get_request_total p url max_attempts s :
  exists r s',
    get_request W p url max_attempts s = Some (r, s') /\
    (requests s <= requests s')%nat /\
    (requests s' <= requests s + Z.to_nat (max_attempts + 1))%nat /\
    files s' = files s.
Proof.
  unfold get_request.
  destruct (get_request_loop_bound (Z.to_nat (max_attempts + 1)) p url
              max_attempts 0 s) as (r & s' & H & Hlo & Hhi & Hfs); [lia|].
  exists r, s'. rewrite Z.sub_0_r in Hhi. auto.
Qed.

(** When every attempt fails at connection level the whole budget is spent:
    one GET per remaining attempt, then the exhaustion message. *)
Lemma get_request_loop_all_fail fuel p url max_attempts attempt s :
  (Z.to_nat (max_attempts + 1 - attempt) <= fuel)%nat ->
  (forall i, connected W (probes s + i) = true) ->
  (forall i, http_get W (requests s + i) url p = Raise ConnectionError) ->
  exists s',
    get_request_loop W fuel p url max_attempts attempt s =
      Some (Ok (false, "Przekroczono maksymalną liczbę prób"), s') /\
    requests s' = (requests s + Z.to_nat (max_attempts + 1 - attempt))%nat.
Proof.
  revert attempt s. induction fuel as [|fuel IH]; intros attempt s Hfuel Hup Hget.
  - rewrite loop_exhausted by lia. eexists. split; [reflexivity|]. lia.
  - destruct (Z.leb_spec attempt max_attempts) as [Hle|Hgt].
    2:{ rewrite loop_exhausted by lia. eexists. split; [reflexivity|]. lia. }
    rewrite loop_retry; trivial.
    2:{ specialize (Hup 0%nat). now rewrite Nat.add_0_r in Hup. }
    2:{ specialize (Hget 0%nat). now rewrite Nat.add_0_r in Hget. }
    destruct (IH (attempt + 1) (after_failed_attempt url p s)) as (s' & -> & Hn).
    + lia.
    + intros i. change (probes (after_failed_attempt url p s)) with (S (probes s)).
      specialize (Hup (S i)). now rewrite Nat.add_succ_r in Hup.
    + intros i. change (requests (after_failed_attempt url p s)) with (S (requests s)).
      specialize (Hget (S i)). now rewrite Nat.add_succ_r in Hget.
    + exists s'. split; [reflexivity|]. rewrite Hn.
      change (requests (after_failed_attempt url p s)) with (S (requests s)). lia.
Qed.

(** C2: [get_request] always returns, after at most [max_attempts + 1] GETs
    (none at all for a negative budget).  With [max_attempts = 3], a network
    the prober finds reachable before each attempt, and a transport that
    fails the first three GETs at connection level and answers the fourth
    with status 200, the call returns success with the body of that answer,
    having issued four GETs and slept three times. *)
Theorem get_request_retry_budget p url s :
  (forall max_attempts, exists r s',
      get_request W p url max_attempts s = Some (r, s') /\
      Z.of_nat (requests s' - requests s) <= Z.max 0 (max_attempts + 1)) /\
  (forall body,
      (forall i, (i < 4)%nat -> connected W (probes s + i) = true) ->
      (forall i, (i < 3)%nat ->
         http_get W (requests s + i) url p = Raise ConnectionError) ->
      http_get W (requests s + 3) url p = Ok (Response 200 body) ->
      exists s',
        get_request W p url 3 s = Some (Ok (true, body), s') /\
        requests s' = (requests s + 4)%nat /\
        sleeps s' = (sleeps s + 3)%nat).
Proof.
  split.
  - intros max_attempts.
    destruct (get_request_total p url max_attempts s) as (r & s' & H & Hlo & Hhi & _).
    exists r, s'. split; [exact H|]. lia.
  - intros body Hup Hfail Hok.
    unfold get_request. change (Z.to_nat (3 + 1)) with 4%nat.
    pose proof (Hup 0%nat ltac:(lia)) as U0. pose proof (Hup 1%nat ltac:(lia)) as U1.
    pose proof (Hup 2%nat ltac:(lia)) as U2. pose proof (Hup 3%nat ltac:(lia)) as U3.
    pose proof (Hfail 0%nat ltac:(lia)) as F0. pose proof (Hfail 1%nat ltac:(lia)) as F1.
    pose proof (Hfail 2%nat ltac:(lia)) as F2.
    rewrite Nat.add_0_r in U0, F0.
    replace (probes s + 1)%nat with (S (probes s)) in U1 by lia.
    replace (probes s + 2)%nat with (S (S (probes s))) in U2 by lia.
    replace (probes s + 3)%nat with (S (S (S (probes s)))) in U3 by lia.
    replace (requests s + 1)%nat with (S (requests s)) in F1 by lia.
    replace (requests s + 2)%nat with (S (S (requests s))) in F2 by lia.
    replace (requests s + 3)%nat with (S (S (S (requests s)))) in Hok by lia.
    rewrite loop_retry by (trivial; lia).
    rewrite loop_retry by (trivial; lia).
    rewrite loop_retry by (trivial; lia).
    rewrite (loop_answer _ _ _ _ _ _ (Response 200 body)) by (trivial; lia).
    eexists. split; [reflexivity|].
    unfold requests, sleeps, count. cbn. lia.
Qed.

(** The budget is tight: with a reachable network and a transport that never
    connects, exactly [max_attempts + 1] GETs are issued. *)
Lemma get_request_spends_whole_budget p url max_attempts s :
  (forall i, connected W (probes s + i) = true) ->
  (forall i, http_get W (requests s + i) url p = Raise ConnectionError) ->
  exists s',
    get_request W p url max_attempts s =
      Some (Ok (false, "Przekroczono maksymalną liczbę prób"), s') /\
    requests s' = (requests s + Z.to_nat (max_attempts + 1))%nat.
Proof.
  intros Hup Hget. unfold get_request.
  destruct (get_request_loop_all_fail (Z.to_nat (max_attempts + 1)) p url
              max_attempts 0 s) as (s' & H & Hn); [lia|trivial..|].
  exists s'. now rewrite Z.sub_0_r in Hn.
Qed.

(** C3: with a reachable network and a transport that answers the first GET
    with a status other than 200, [get_request] returns the failure that
    names the status code, after that single GET: no further probe, no
    further GET and no sleep. *)
Theorem non_200_fails_without_retry p url max_attempts s r :
  0 <= max_attempts ->
  connected W (probes s) = true ->
  http_get W (requests s) url p = Ok r ->
  status_code r <> 200 ->
  get_request W p url max_attempts s =
    Some (Ok (false, "Błąd " +:+ Py.str_of_int (status_code r)),
          after_answer url p s) /\
  trace (after_answer url p s) = EvGet url p :: EvProbe true :: trace s /\
  requests (after_answer url p s) = S (requests s) /\
  sleeps (after_answer url p s) = sleeps s.
Proof.
  intros Hm Hup Hget Hcode. split; [|repeat split].
  unfold get_request.
  destruct (Z.to_nat (max_attempts + 1)) as [|fuel] eqn:Hfuel; [lia|].
  rewrite (loop_answer _ _ _ _ _ _ r) by (trivial; lia).
  now replace (status_code r =? 200) with false by (symmetry; now apply Z.eqb_neq).
Qed.

End RequestEngine.

Lemma get_request_retry_budget_witness :
  exists s',
    get_request flaky_world [] "https://host/wms" 3 (fresh ∅) =
      Some (Ok (true, "body"), s') /\
    requests s' = 4%nat /\ sleeps s' = 3%nat.
Proof.
  apply (proj2 (get_request_retry_budget flaky_world [] "https://host/wms" (fresh ∅))
           "body").
  - intros i _. reflexivity.
  - intros i Hi. destruct i as [|[|[|i]]]; [reflexivity..|lia].
  - reflexivity.
Defined.

Lemma non_200_fails_without_retry_witness :
  get_request broken_server [] "https://host/wms" 3 (fresh ∅) =
    Some (Ok (false, "Błąd 500"),
          State ∅ [EvGet "https://host/wms" []; EvProbe true]).
Proof.
  apply (non_200_fails_without_retry broken_server [] "https://host/wms" 3 (fresh ∅)
           (Response 500 "Internal Server Error")).
  - lia.
  - reflexivity.
  - reflexivity.
  - cbn. lia.
Defined.

(** * The streaming downloader *)

Section Downloader.

Context (W : World).

(** [_cleanup_file] either succeeds, and then nothing is left at [path], or
    the disk refuses the removal and the files are as they were. *)
Lemma _cleanup_file_outcome path s :
  match _cleanup_file W path s with
  | (Ok _, s') => files s' !! path = None
  | (Raise e, s') => e = OSError /\ files s' = files s
  end.
Proof.
  unfold _cleanup_file, bind, path_exists, os_remove, disk_op, ret.
  destruct (bool_decide (is_Some (files s !! path))) eqn:Hthere.
  - destruct (disk_ok W _); cbn [files log].
    + apply lookup_delete_eq.
    + auto.
  - apply bool_decide_eq_false in Hthere.
    now apply eq_None_not_Some.
Qed.

Lemma _cleanup_file_ok path s :
  (forall k, disk_ok W k = true) ->
  exists s', _cleanup_file W path s = (Ok tt, s') /\
             files s' = delete path (files s) /\
             count is_write (trace s') = count is_write (trace s) /\
             probes s' = probes s.
Proof.
  intros Hdisk.
  unfold _cleanup_file, bind, path_exists, os_remove, disk_op, ret.
  destruct (bool_decide (is_Some (files s !! path))) eqn:Hthere.
  - rewrite Hdisk. eexists. split; [reflexivity|]. now cbn.
  - eexists. split; [reflexivity|]. split; [|now split].
    apply bool_decide_eq_false in Hthere. apply eq_None_not_Some in Hthere.
    symmetry. now apply delete_id.
Qed.

(** The ways out of the chunk loop: success with the destination path, the
    cancelled or the interrupted failure with nothing left at the path, or
    an exception. *)
Lemma iter_content_loop_outcome path pc cc total fault chunks downloaded s :
  match iter_content_loop W path pc cc total fault chunks downloaded s with
  | (Ok (true, x), _) => x = path
  | (Ok (false, reason), s') =>
      (reason = cancelled_msg \/ reason = interrupted_msg) /\
      files s' !! path = None
  | (Raise _, _) => True
  end.
Proof.
  revert downloaded s. induction chunks as [|chunk rest IH]; intros downloaded s.
  - cbn [iter_content_loop]. destruct fault; [exact I|reflexivity].
  - cbn [iter_content_loop]. unfold bind at 1.
    destruct (poll_cancel cc s) as [[stop|e] s1]; [|exact I].
    destruct stop.
    + unfold bind, response_close.
      pose proof (_cleanup_file_outcome path (log EvClose s1)) as Hc.
      destruct (_cleanup_file W path (log EvClose s1)) as [[[]|e] s2]; [|exact I].
      cbn. auto.
    + unfold bind at 1.
      destruct ((if downloaded mod 10000000 =? 0
                 then _is_internet_connected W else ret true) s1)
        as [[up|e] s2]; [|exact I].
      destruct up; cbn [negb].
      * unfold bind at 1. destruct (file_write W path chunk s2) as [[[]|e] s3];
          [|exact I].
        unfold bind at 1.
        destruct (report_progress pc _ total s3) as [[[]|e] s4]; [|exact I].
        apply IH.
      * unfold bind, response_close.
        pose proof (_cleanup_file_outcome path (log EvClose s2)) as Hc.
        destruct (_cleanup_file W path (log EvClose s2)) as [[[]|e] s3]; [|exact I].
        cbn. auto.
Qed.

Lemma download_try_outcome url dest path pc cc s :
  match download_try W url dest path pc cc s with
  | (Ok (true, x), _) => x = path
  | (Ok (false, reason), s') =>
      (reason = not_found_msg /\ files s' = files s) \/
      ((reason = cancelled_msg \/ reason = interrupted_msg) /\
       files s' !! path = None)
  | (Raise _, _) => True
  end.
Proof.
  unfold download_try, bind at 1. unfold session_get_stream.
  destruct (http_get_stream W _ url) as [resp|e]; [|exact I].
  destruct (stream_status resp =? 404).
  { cbn. left. auto. }
  unfold bind at 1.
  destruct (match stream_length resp with
            | LengthAbsent => ret 0
            | LengthInt n => ret n
            | LengthGarbage => raise ValueError
            end (log (EvGetStream url) s)) as [[total|e] s1]; [|exact I].
  unfold bind at 1. destruct (_cleanup_file W path s1) as [[[]|e] s2]; [|exact I].
  unfold bind at 1. destruct (os_makedirs W dest s2) as [[[]|e] s3]; [|exact I].
  unfold bind at 1. destruct (open_wb W path s3) as [[[]|e] s4]; [|exact I].
  pose proof (iter_content_loop_outcome path pc cc total (stream_fault resp)
                (stream_chunks resp) 0 s4) as H.
  destruct (iter_content_loop W path pc cc total _ _ 0 s4) as [[[[] x]|e] s5]; auto.
Qed.

(** C1, amended: when [download_file] returns the cancelled or the
    connection-interrupted failure (cancellation, a probe that finds the
    network down, a connection-level or chunked-encoding error of the
    transport), no file exists at the destination path on return; when it
    returns the not-found failure the files are exactly those from before
    the call.  The only other failure it can return is the write error. *)
Theorem failed_download_leaves_no_file url dest pc cc s reason s' file_name :
  download_file W url dest pc cc s = (Ok (false, reason), s') ->
  _generate_filename url = Ok file_name ->
  (reason = cancelled_msg \/ reason = interrupted_msg ->
   files s' !! Py.path_join dest file_name = None) /\
  (reason = not_found_msg -> files s' = files s) /\
  (reason = cancelled_msg \/ reason = interrupted_msg \/
   reason = not_found_msg \/ reason = write_error_msg).
Proof.
  intros Hrun Hname.
  enough (Hcases :
    (reason = not_found_msg /\ files s' = files s) \/
    ((reason = cancelled_msg \/ reason = interrupted_msg) /\
     files s' !! Py.path_join dest file_name = None) \/
    reason = write_error_msg).
  { destruct Hcases as [[-> Hfs] | [[[-> | ->] Hgone] | ->]];
      (split; [|split]); auto; intros H; try exact Hfs; try exact Hgone;
      try (destruct H as [H|H]); discriminate H. }
  revert Hrun. unfold download_file, bind at 1, lift. rewrite Hname.
  set (path := Py.path_join dest file_name). unfold try_except.
  pose proof (download_try_outcome url dest path pc cc s) as Htry.
  destruct (download_try W url dest path pc cc s) as [[[ok x]|e] s1].
  - intros [= Hok Hx Hs]. subst ok x s1. destruct Htry as [H|H]; auto.
  - unfold download_except.
    destruct (is_ConnectionError e || is_ChunkedEncodingError e).
    + unfold bind.
      pose proof (_cleanup_file_outcome path s1) as Hc.
      destruct (_cleanup_file W path s1) as [[[]|e'] s2]; [|discriminate].
      intros [= <- <-]. right. left. split; [now right|exact Hc].
    + destruct (is_IOError e); [|discriminate].
      intros [= <- <-]. right. now right.
Qed.

(** C4, amended: with a cancellation check that answers true from its first
    call, a streamed response whose status is not 404, whose content-length
    [int] accepts and whose body yields at least one chunk, and a disk that
    accepts the file operations, [download_file] returns the cancelled
    failure, has written no chunk, and leaves nothing at the destination
    path. *)
Theorem cancel_before_first_chunk url dest pc ask s resp file_name chunk rest :
  (forall k, ask k = true) ->
  (forall k, disk_ok W k = true) ->
  http_get_stream W (requests s) url = Ok resp ->
  stream_status resp <> 404 ->
  stream_length resp <> LengthGarbage ->
  stream_chunks resp = chunk :: rest ->
  _generate_filename url = Ok file_name ->
  exists s',
    download_file W url dest pc (Some ask) s = (Ok (false, cancelled_msg), s') /\
    writes s' = writes s /\
    files s' !! Py.path_join dest file_name = None.
Proof.
  intros Hask Hdisk Hget Hstatus Hlen Hchunks Hname.
  unfold download_file, bind at 1, lift. rewrite Hname.
  set (path := Py.path_join dest file_name).
  unfold try_except, download_try, bind at 1, session_get_stream.
  fold (requests s). rewrite Hget.
  replace (stream_status resp =? 404) with false
    by (symmetry; now apply Z.eqb_neq).
  set (s1 := log (EvGetStream url) s).
  assert (Htotal : exists total,
    match stream_length resp with
    | LengthAbsent => ret 0
    | LengthInt n => ret n
    | LengthGarbage => raise ValueError
    end s1 = (Ok total, s1)).
  { destruct (stream_length resp); [now exists 0 | now eexists | congruence]. }
  destruct Htotal as [total Htotal]. unfold bind at 1. rewrite Htotal.
  destruct (_cleanup_file_ok path s1 Hdisk) as (s2 & Hc2 & _ & Hw2 & _).
  unfold bind at 1. rewrite Hc2.
  unfold bind at 1, os_makedirs, open_wb, disk_op. rewrite Hdisk.
  unfold bind at 1. cbn [trace files]. rewrite Hdisk.
  rewrite Hchunks. cbn [iter_content_loop].
  unfold bind at 1, poll_cancel. rewrite Hask.
  unfold bind at 1, response_close. unfold bind.
  match goal with
  | |- context [_cleanup_file W path ?st] =>
      destruct (_cleanup_file_ok path st Hdisk) as (s3 & Hc3 & Hf3 & Hw3 & _);
      rewrite Hc3
  end.
  exists s3. split; [reflexivity|]. split.
  - unfold writes. rewrite Hw3. unfold count in *. cbn. exact Hw2.
  - rewrite Hf3. apply lookup_delete_eq.
Qed.

(** One turn of the chunk loop, no callbacks, a working disk.  The prober is
    called exactly when the byte count is a multiple of 10,000,000. *)
Lemma loop_turn_without_probe path total fault chunk rest downloaded s :
  (forall k, disk_ok W k = true) ->
  downloaded mod 10000000 <> 0 ->
  iter_content_loop W path None None total fault (chunk :: rest) downloaded s =
  iter_content_loop W path None None total fault rest
    (downloaded + Z.of_nat (length chunk)) (wrote path chunk s).
Proof.
  intros Hdisk Hmod. cbn [iter_content_loop poll_cancel report_progress].
  replace (downloaded mod 10000000 =? 0) with false
    by (symmetry; now apply Z.eqb_neq).
  unfold bind, ret, file_write, disk_op. cbn [negb]. now rewrite Hdisk.
Qed.

Lemma loop_turn_with_probe path total fault chunk rest downloaded s :
  (forall k, disk_ok W k = true) ->
  downloaded mod 10000000 = 0 ->
  connected W (probes s) = true ->
  iter_content_loop W path None None total fault (chunk :: rest) downloaded s =
  iter_content_loop W path None None total fault rest
    (downloaded + Z.of_nat (length chunk))
    (wrote path chunk (log (EvProbe true) s)).
Proof.
  intros Hdisk Hmod Hup. cbn [iter_content_loop poll_cancel report_progress].
  replace (downloaded mod 10000000 =? 0) with true
    by (symmetry; now apply Z.eqb_eq).
  unfold bind, ret, _is_internet_connected, file_write, disk_op.
  fold (probes s). rewrite Hup. cbn [negb]. now rewrite Hdisk.
Qed.

(** A probe that finds the network down aborts the download: the response
    is closed, the partial file removed, the interrupted failure returned,
    and the chunk at hand is not written. *)
Lemma loop_turn_disconnected path total fault chunk rest downloaded s :
  (forall k, disk_ok W k = true) ->
  downloaded mod 10000000 = 0 ->
  connected W (probes s) = false ->
  exists s',
    iter_content_loop W path None None total fault (chunk :: rest) downloaded s =
      (Ok (false, interrupted_msg), s') /\
    files s' !! path = None /\ writes s' = writes s.
Proof.
  intros Hdisk Hmod Hup. cbn [iter_content_loop poll_cancel report_progress].
  replace (downloaded mod 10000000 =? 0) with true
    by (symmetry; now apply Z.eqb_eq).
  unfold bind, ret, _is_internet_connected, response_close.
  fold (probes s). rewrite Hup. cbn [negb].
  match goal with
  | |- context [_cleanup_file W path ?st] =>
      destruct (_cleanup_file_ok path st Hdisk) as (s3 & Hc3 & Hf3 & Hw3 & _);
      rewrite Hc3
  end.
  exists s3. split; [reflexivity|]. split.
  - rewrite Hf3. apply lookup_delete_eq.
  - unfold writes. rewrite Hw3. reflexivity.
Qed.

(** Counting in chunks of 8192 bytes, the first multiple of 10,000,000 after
    zero is 640,000,000 = 78125 * 8192. *)
Lemma full_chunks_miss_the_mark i :
  0 < i < 78125 -> (8192 * i) mod 10000000 <> 0.
Proof.
  intros Hi Hmod. apply Z.mod_divide in Hmod; [|lia].
  destruct Hmod as [q Hq].
  assert (Hdiv : (78125 | 64 * i)) by (exists q; lia).
  apply Z.gauss in Hdiv; [|reflexivity].
  apply Z.divide_pos_le in Hdiv; lia.
Qed.

Lemma loop_full_chunks path total chunks i s :
  (forall k, disk_ok W k = true) ->
  Forall (fun c : bytes => Z.of_nat (length c) = 8192) chunks ->
  0 < i -> i + Z.of_nat (length chunks) <= 78125 ->
  exists s',
    iter_content_loop W path None None total None chunks (8192 * i) s =
      (Ok (true, path), s') /\
    probes s' = probes s.
Proof.
  intros Hdisk Hfull. revert i s.
  induction Hfull as [|chunk rest Hchunk _ IH]; intros i s Hi Hn.
  - cbn. eexists. split; reflexivity.
  - cbn [length] in Hn.
    rewrite loop_turn_without_probe
      by (trivial; apply full_chunks_miss_the_mark; lia).
    rewrite Hchunk. replace (8192 * i + 8192) with (8192 * (i + 1)) by lia.
    destruct (IH (i + 1) (wrote path chunk s)) as (s' & -> & Hp); [lia..|].
    exists s'. split; [reflexivity|]. exact Hp.
Qed.

(** C8, the code at the sizes the transfer really uses: a body of up to
    78125 chunks of 8192 bytes (up to 640,000,000 bytes), no callbacks, a
    reachable network and a working disk.  The download succeeds and the
    prober has been called once, before the first chunk, and never again. *)
Theorem full_chunks_probe_once url dest s resp file_name :
  (forall k, connected W k = true) ->
  (forall k, disk_ok W k = true) ->
  http_get_stream W (requests s) url = Ok resp ->
  stream_status resp <> 404 ->
  stream_length resp <> LengthGarbage ->
  stream_fault resp = None ->
  stream_chunks resp <> [] ->
  Forall (fun c : bytes => Z.of_nat (length c) = 8192) (stream_chunks resp) ->
  Z.of_nat (length (stream_chunks resp)) <= 78125 ->
  _generate_filename url = Ok file_name ->
  exists s',
    download_file W url dest None None s =
      (Ok (true, Py.path_join dest file_name), s') /\
    probes s' = S (probes s).
Proof.
  intros Hup Hdisk Hget Hstatus Hlen Hfault Hne Hfull Hcount Hname.
  unfold download_file, bind at 1, lift. rewrite Hname.
  set (path := Py.path_join dest file_name).
  unfold try_except, download_try, bind at 1, session_get_stream.
  fold (requests s). rewrite Hget.
  replace (stream_status resp =? 404) with false
    by (symmetry; now apply Z.eqb_neq).
  set (s1 := log (EvGetStream url) s).
  assert (Htotal : exists total,
    match stream_length resp with
    | LengthAbsent => ret 0
    | LengthInt n => ret n
    | LengthGarbage => raise ValueError
    end s1 = (Ok total, s1)).
  { destruct (stream_length resp); [now exists 0 | now eexists | congruence]. }
  destruct Htotal as [total Htotal]. unfold bind at 1. rewrite Htotal.
  destruct (_cleanup_file_ok path s1 Hdisk) as (s2 & Hc2 & _ & _ & Hp2).
  unfold bind at 1. rewrite Hc2.
  unfold bind at 1, os_makedirs, open_wb, disk_op. rewrite Hdisk.
  unfold bind at 1. cbn [trace files]. rewrite Hdisk, Hfault.
  destruct (stream_chunks resp) as [|chunk rest]; [congruence|].
  apply Forall_cons_iff in Hfull as [Hchunk Hrest]. cbn [length] in Hcount.
  rewrite loop_turn_with_probe by (trivial; reflexivity).
  rewrite Hchunk. change (0 + 8192) with (8192 * 1).
  match goal with
  | |- context [iter_content_loop W path None None total None rest _ ?st] =>
      destruct (loop_full_chunks path total rest 1 st Hdisk Hrest) as (s' & Hrun & Hp);
      [lia..|]
  end.
  rewrite Hrun. exists s'. split; [reflexivity|].
  rewrite Hp. unfold probes, count in *. cbn. now rewrite Hp2.
Qed.

End Downloader.

(** * Concrete runs of the downloader *)

(** C1, as stated, fails on a 404: the early return leaves the file that
    was at the destination path before the call where it is. *)
Lemma not_found_keeps_old_file :
  ~ (forall (W : World) url dest pc cc s reason s' file_name,
       download_file W url dest pc cc s = (Ok (false, reason), s') ->
       _generate_filename url = Ok file_name ->
       files s' !! Py.path_join dest file_name = None).
Proof.
  intros H.
  specialize (H (serving not_found) "https://host/a.zip" "/tmp/out" None None
                (fresh {["/tmp/out/a.zip" := two_bytes]}) not_found_msg
                _ "a.zip" eq_refl eq_refl).
  vm_compute in H. discriminate.
Qed.

(** A write the disk refuses is reported as the write error, and the file
    opened for the download stays behind. *)
Lemma write_error_keeps_partial_file :
  let run := download_file (serving_on_full_disk small_body) "https://host/a.zip"
               "/tmp/out" None None (fresh ∅) in
  fst run = Ok (false, write_error_msg) /\
  files (snd run) !! "/tmp/out/a.zip" = Some [].
Proof. split; vm_compute; reflexivity. Qed.

Lemma failed_download_leaves_no_file_witness :
  files (snd (download_file (serving small_body) "https://host/a.zip" "/tmp/out"
                None (Some cancel_after_first) (fresh ∅)))
    !! "/tmp/out/a.zip" = None.
Proof.
  assert (Hrun :
    download_file (serving small_body) "https://host/a.zip" "/tmp/out"
      None (Some cancel_after_first) (fresh ∅) =
    (Ok (false, cancelled_msg),
     snd (download_file (serving small_body) "https://host/a.zip" "/tmp/out"
            None (Some cancel_after_first) (fresh ∅))))
    by (vm_compute; reflexivity).
  apply (proj1 (failed_download_leaves_no_file _ _ _ _ _ _ _ _ "a.zip"
                  Hrun eq_refl)).
  left. reflexivity.
Defined.

(** C4, as stated, fails on a body of zero chunks: the check is never
    polled and the download succeeds, leaving an empty file. *)
Lemma cancel_unseen_on_empty_body :
  ~ (forall (W : World) url dest pc ask s resp file_name,
       (forall k, ask k = true) ->
       http_get_stream W (requests s) url = Ok resp ->
       stream_status resp <> 404 ->
       _generate_filename url = Ok file_name ->
       exists s',
         download_file W url dest pc (Some ask) s =
           (Ok (false, cancelled_msg), s') /\
         writes s' = writes s /\
         files s' !! Py.path_join dest file_name = None).
Proof.
  intros H.
  destruct (H (serving empty_body) "https://host/a.zip" "/tmp/out" None
              cancel_at_once (fresh ∅) empty_body "a.zip"
              ltac:(reflexivity) eq_refl ltac:(discriminate) eq_refl)
    as (s' & Hrun & _).
  vm_compute in Hrun. discriminate.
Qed.

Lemma cancel_before_first_chunk_witness :
  exists s',
    download_file (serving small_body) "https://host/a.zip" "/tmp/out" None
      (Some cancel_at_once) (fresh ∅) = (Ok (false, cancelled_msg), s') /\
    writes s' = 0%nat /\
    files s' !! "/tmp/out/a.zip" = None.
Proof.
  apply (cancel_before_first_chunk (serving small_body) "https://host/a.zip"
           "/tmp/out" None cancel_at_once (fresh ∅) small_body "a.zip"
           two_bytes [two_bytes]);
    try reflexivity; discriminate.
Defined.

Lemma full_chunks_probe_once_witness :
  exists s',
    download_file (serving twenty_megabytes) "https://host/a.zip" "/tmp/out"
      None None (fresh ∅) = (Ok (true, "/tmp/out/a.zip"), s') /\
    probes s' = 1%nat.
Proof.
  apply (full_chunks_probe_once (serving twenty_megabytes) "https://host/a.zip"
           "/tmp/out" (fresh ∅) twenty_megabytes "a.zip").
  - reflexivity.
  - reflexivity.
  - reflexivity.
  - discriminate.
  - discriminate.
  - reflexivity.
  - discriminate.
  - apply Forall_replicate. unfold full_chunk. rewrite length_replicate. lia.
  - cbn [twenty_megabytes stream_chunks]. rewrite length_replicate. lia.
  - reflexivity.
Defined.

(** * The capability-document layer extractor *)

Section LayerExtractor.

Lemma elem_of_dedup_keep_first l x : x ∈ dedup_keep_first l <-> x ∈ l.
Proof.
  induction l as [|y l IH]; [reflexivity|]. cbn [dedup_keep_first].
  rewrite !elem_of_cons, list_elem_of_filter, IH.
  destruct (decide (x = y)); tauto.
Qed.

Lemma NoDup_dedup_keep_first l : NoDup (dedup_keep_first l).
Proof.
  induction l as [|y l IH]; cbn [dedup_keep_first]; [constructor|].
  apply NoDup_cons. split.
  - rewrite list_elem_of_filter. tauto.
  - now apply NoDup_filter.
Qed.


(** Appending a key: it is dropped when it occurred before. *)
Lemma dedup_keep_first_snoc l x :
  dedup_keep_first (l ++ [x]) =
  if decide (x ∈ l) then dedup_keep_first l else dedup_keep_first l ++ [x].
Proof.
  induction l as [|y l IH]; [reflexivity|].
  cbn [app dedup_keep_first]. rewrite IH.
  destruct (decide (x ∈ l)) as [Hin|Hnin], (decide (x ∈ y :: l)) as [Hin'|Hnin'];
    rewrite ?elem_of_cons in *; try tauto.
  - rewrite filter_app. cbn.
    destruct (decide (x <> y)) as [Hne|Heq]; [tauto|].
    now rewrite app_nil_r.
  - rewrite filter_app. cbn.
    destruct (decide (x <> y)) as [Hne|Heq]; [reflexivity|].
    destruct (decide (x = y)); tauto.
Qed.

Lemma keys_setitem {V} (d : Dict.t V) k v :
  Dict.keys (Dict.setitem d k v) =
  if decide (k ∈ Dict.keys d) then Dict.keys d else Dict.keys d ++ [k].
Proof.
  unfold Dict.keys. induction d as [|[k' v'] d IH]; [reflexivity|].
  cbn [Dict.setitem map fst].
  destruct (String.eqb_spec k' k) as [->|Hne]; cbn [map fst].
  - destruct (decide (k ∈ k :: map fst d)) as [_|Hnin]; [reflexivity|].
    destruct Hnin. apply list_elem_of_here.
  - rewrite IH.
    destruct (decide (k ∈ map fst d)) as [Hin|Hnin],
             (decide (k ∈ k' :: map fst d)) as [Hin'|Hnin'];
      rewrite ?elem_of_cons in *; try reflexivity; try tauto.
    destruct Hin' as [?|?]; [congruence|tauto].
Qed.

(** [list(dict.fromkeys(l))] removes duplicates and keeps first occurrences. *)
Lemma keys_fromkeys l : Dict.keys (Dict.fromkeys l) = dedup_keep_first l.
Proof.
  unfold Dict.fromkeys. induction l as [|x l IH] using rev_ind; [reflexivity|].
  rewrite fold_left_app. cbn [fold_left].
  rewrite keys_setitem, IH, dedup_keep_first_snoc.
  destruct (decide (x ∈ l)) as [Hin|Hnin],
           (decide (x ∈ dedup_keep_first l)) as [Hin'|Hnin'];
    rewrite ?elem_of_dedup_keep_first in *; try reflexivity; tauto.
Qed.

Lemma truthy_texts_nonempty els x : x ∈ truthy_texts els -> x <> EmptyString.
Proof.
  unfold truthy_texts. rewrite list_elem_of_In, in_flat_map.
  intros (el & _ & Hx). destruct (el_text el) as [t|]; [|destruct Hx].
  destruct (String.eqb_spec t ""); cbn in Hx; [destruct Hx|].
  destruct Hx as [<-|[]]. assumption.
Qed.

Lemma collect_layers_nonempty root x : x ∈ collect_layers root -> x <> EmptyString.
Proof.
  assert (Hplain : x ∈ collect_plain root -> x <> EmptyString).
  { unfold collect_plain. rewrite list_elem_of_In, in_flat_map.
    intros (layer & _ & Hx). destruct (find_child "Name" layer); [|destruct Hx].
    apply (truthy_texts_nonempty [e]). now apply list_elem_of_In. }
  unfold collect_layers. destruct (el_nsmap_default root) as [uri|]; [|exact Hplain].
  destruct (negb (uri =? "")%string); [|exact Hplain].
  apply truthy_texts_nonempty.
Qed.

(** The XPath query yields its elements in document order. *)
Lemma xpath_names_at_document_order uri e :
  forall under parent,
    sublist (xpath_names_at uri under parent e) (e :: descendants e).
Proof.
  induction e as [ns l d t cs IH] using element_ind'. intros under parent.
  cbn [xpath_names_at descendants].
  change (Element ns l d t cs :: flat_map (fun c => c :: descendants c) cs)
    with ([Element ns l d t cs] ++ flat_map (fun c => c :: descendants c) cs).
  apply sublist_app.
  - destruct (parent && _); [reflexivity | apply sublist_nil_l].
  - induction IH as [|c cs' Hc _ IHcs]; [constructor|].
    cbn [flat_map]. apply sublist_app; [apply Hc | apply IHcs].
Qed.

Lemma xpath_document_order uri root :
  sublist (xpath_capability_layer_names uri root) (descendants root).
Proof.
  destruct root as [ns l d t cs].
  unfold xpath_capability_layer_names. cbn [el_children descendants].
  induction cs as [|c cs IH]; [constructor|].
  cbn [flat_map]. apply sublist_app; [apply xpath_names_at_document_order | exact IH].
Qed.

(** So does [findall]. *)
Lemma findall_document_order name root :
  sublist (findall_descendants name root) (descendants root).
Proof.
  unfold findall_descendants. induction (descendants root) as [|e l IH];
    cbn [List.filter]; [constructor|].
  destruct (has_tag None name e); [now apply sublist_skip | now apply sublist_cons].
Qed.

(** ** The extractor against the specified lists *)


















(** ** Documents in which the name leads its layer *)






End LayerExtractor.

Section GetWmsLayers.

Context (W : World).
Context (fromstring_bytes fromstring_str : string -> result (option element)).


(** Nor is every non-empty [Name] value returned: a second [Name] child
    of a layer is never looked at, so
    [<Layer><Name/><Name>X</Name></Layer>] gives no name at all. *)
Lemma later_name_is_ignored :
  layers_of_root empty_first_name = [] /\
  dedup_keep_first (names_in_document_order empty_first_name) = ["X"].
Proof. split; reflexivity. Qed.


End GetWmsLayers.


(** The same server with a document whose outer layer carries its name
    after the nested layer: the names come back in the order of the
    layers. *)
Lemma get_wms_layers_in_layer_order :
  get_wms_layers
    (answering
       ("<WMS_Capabilities><Layer><Layer><Name>B</Name></Layer>" +:+
        "<Name>A</Name></Layer></WMS_Capabilities>"))
    (parse_among known_documents) (parse_among known_documents)
    "https://host/wms" "WMS" (fresh ∅) =
    Some (Ok ["A"; "B"],
          State ∅ [EvGet "https://host/wms"
                     [("SERVICE", "WMS"); ("REQUEST", "GetCapabilities");
                      ("VERSION", "1.3.0")];
                   EvProbe true]).
Proof. reflexivity. Qed.

(** * Further properties of the request engine *)

Section RequestEngineMore.

Context (W : World).

(** After [k] connection failures the loop is at attempt [attempt + k]; an
    answer there ends the call. *)
Lemma loop_answers_after k :
  forall fuel p url max_attempts attempt s r,
    attempt + Z.of_nat k <= max_attempts -> (k < fuel)%nat ->
    (forall i, (i <= k)%nat -> connected W (probes s + i) = true) ->
    (forall i, (i < k)%nat ->
       http_get W (requests s + i) url p = Raise ConnectionError) ->
    http_get W (requests s + k) url p = Ok r ->
    exists s',
      get_request_loop W fuel p url max_attempts attempt s =
        Some (Ok (outcome_of r), s') /\
      requests s' = (requests s + k + 1)%nat /\
      sleeps s' = (sleeps s + k)%nat /\
      probes s' = (probes s + k + 1)%nat /\
      files s' = files s.
Proof.
  induction k as [|k IH]; intros fuel p url max_attempts attempt s r
    Hle Hfuel Hup Hfail Hok.
  - destruct fuel as [|fuel]; [lia|].
    rewrite Nat.add_0_r in Hok.
    rewrite (loop_answer W _ _ _ _ _ _ r); trivial; try lia.
    2:{ specialize (Hup 0%nat ltac:(lia)). now rewrite Nat.add_0_r in Hup. }
    eexists. split; [reflexivity|].
    unfold requests, sleeps, probes, count. cbn. repeat split; lia.
  - destruct fuel as [|fuel]; [lia|].
    rewrite loop_retry; trivial; try lia.
    2:{ specialize (Hup 0%nat ltac:(lia)). now rewrite Nat.add_0_r in Hup. }
    2:{ specialize (Hfail 0%nat ltac:(lia)). now rewrite Nat.add_0_r in Hfail. }
    destruct (IH fuel p url max_attempts (attempt + 1)
                (after_failed_attempt url p s) r)
      as (s' & Hrun & Hreq & Hsl & Hpr & Hfs).
    + lia.
    + lia.
    + intros i Hi. change (probes (after_failed_attempt url p s)) with (S (probes s)).
      specialize (Hup (S i) ltac:(lia)). now rewrite Nat.add_succ_r in Hup.
    + intros i Hi. change (requests (after_failed_attempt url p s)) with (S (requests s)).
      specialize (Hfail (S i) ltac:(lia)). now rewrite Nat.add_succ_r in Hfail.
    + change (requests (after_failed_attempt url p s)) with (S (requests s)).
      now rewrite Nat.add_succ_r in Hok.
    + exists s'. split; [exact Hrun|].
      change (requests (after_failed_attempt url p s)) with (S (requests s)) in Hreq.
      change (sleeps (after_failed_attempt url p s)) with (S (sleeps s)) in Hsl.
      change (probes (after_failed_attempt url p s)) with (S (probes s)) in Hpr.
      change (files (after_failed_attempt url p s)) with (files s) in Hfs.
      repeat split; (lia || assumption).
Qed.

(** X1: an answer that comes after [k <= max_attempts] connection failures
    is what [get_request] returns (success with the body for status 200, the
    status failure otherwise), after [k + 1] probes and GETs and [k] sleeps
    of two seconds; no file is touched. *)
Theorem get_request_answers_after_failures p url max_attempts s k r :
  Z.of_nat k <= max_attempts ->
  (forall i, (i <= k)%nat -> connected W (probes s + i) = true) ->
  (forall i, (i < k)%nat ->
     http_get W (requests s + i) url p = Raise ConnectionError) ->
  http_get W (requests s + k) url p = Ok r ->
  exists s',
    get_request W p url max_attempts s = Some (Ok (outcome_of r), s') /\
    requests s' = (requests s + k + 1)%nat /\
    sleeps s' = (sleeps s + k)%nat /\
    probes s' = (probes s + k + 1)%nat /\
    files s' = files s.
Proof.
  intros Hk Hup Hfail Hok. unfold get_request.
  apply loop_answers_after; trivial; lia.
Qed.

(** X2: a probe that finds the network down ends the call at once, also
    between retries: after [k <= max_attempts] connection failures the
    interrupted failure is returned, with [k] GETs made and no further one. *)
Theorem get_request_stops_when_disconnected p url max_attempts s k :
  Z.of_nat k <= max_attempts ->
  (forall i, (i < k)%nat -> connected W (probes s + i) = true) ->
  (forall i, (i < k)%nat ->
     http_get W (requests s + i) url p = Raise ConnectionError) ->
  connected W (probes s + k) = false ->
  exists s',
    get_request W p url max_attempts s = Some (Ok (false, interrupted_msg), s') /\
    requests s' = (requests s + k)%nat /\
    sleeps s' = (sleeps s + k)%nat.
Proof.
  unfold get_request.
  assert (Hgen : forall k fuel attempt s,
    attempt + Z.of_nat k <= max_attempts -> (k < fuel)%nat ->
    (forall i, (i < k)%nat -> connected W (probes s + i) = true) ->
    (forall i, (i < k)%nat ->
       http_get W (requests s + i) url p = Raise ConnectionError) ->
    connected W (probes s + k) = false ->
    exists s',
      get_request_loop W fuel p url max_attempts attempt s =
        Some (Ok (false, interrupted_msg), s') /\
      requests s' = (requests s + k)%nat /\
      sleeps s' = (sleeps s + k)%nat).
  { clear s k. induction k as [|k IH]; intros fuel attempt s Hle Hfuel Hup Hfail Hdown.
    - destruct fuel as [|fuel]; [lia|]. rewrite Nat.add_0_r in Hdown.
      cbn [get_request_loop].
      replace (attempt <=? max_attempts) with true by (symmetry; apply Z.leb_le; lia).
      unfold _is_internet_connected. fold (probes s). rewrite Hdown. cbn [negb].
      eexists. split; [reflexivity|].
      unfold requests, sleeps, count. cbn. lia.
    - destruct fuel as [|fuel]; [lia|].
      rewrite loop_retry; trivial; try lia.
      2:{ specialize (Hup 0%nat ltac:(lia)). now rewrite Nat.add_0_r in Hup. }
      2:{ specialize (Hfail 0%nat ltac:(lia)). now rewrite Nat.add_0_r in Hfail. }
      destruct (IH fuel (attempt + 1) (after_failed_attempt url p s))
        as (s' & Hrun & Hreq & Hsl).
      + lia.
      + lia.
      + intros i Hi. change (probes (after_failed_attempt url p s)) with (S (probes s)).
        specialize (Hup (S i) ltac:(lia)). now rewrite Nat.add_succ_r in Hup.
      + intros i Hi. change (requests (after_failed_attempt url p s)) with (S (requests s)).
        specialize (Hfail (S i) ltac:(lia)). now rewrite Nat.add_succ_r in Hfail.
      + change (probes (after_failed_attempt url p s)) with (S (probes s)).
        now rewrite Nat.add_succ_r in Hdown.
      + exists s'. split; [exact Hrun|].
        change (requests (after_failed_attempt url p s)) with (S (requests s)) in Hreq.
        change (sleeps (after_failed_attempt url p s)) with (S (sleeps s)) in Hsl.
        lia. }
  intros Hk Hup Hfail Hdown. apply Hgen; trivial; lia.
Qed.

(** X3: an exception of the transport that is no connection error (a read
    timeout, say) is not retried and not turned into a failure outcome: it
    leaves [get_request] as it came, after one probe and one GET. *)
Theorem get_request_lets_other_exceptions_through p url max_attempts s e :
  0 <= max_attempts ->
  connected W (probes s) = true ->
  http_get W (requests s) url p = Raise e ->
  is_ConnectionError e = false ->
  get_request W p url max_attempts s = Some (Raise e, after_answer url p s).
Proof.
  intros Hm Hup Hget He. unfold get_request.
  destruct (Z.to_nat (max_attempts + 1)) as [|fuel] eqn:Hfuel; [lia|].
  cbn [get_request_loop]. change (0 <=? max_attempts) with (0 <=? max_attempts).
  replace (0 <=? max_attempts) with true by (symmetry; now apply Z.leb_le).
  unfold _is_internet_connected, session_get. fold (probes s). rewrite Hup.
  cbn [negb trace log].
  change (count is_request (EvProbe true :: trace s)) with (requests s).
  rewrite Hget, He. reflexivity.
Qed.

(** With a negative budget [get_request] calls nothing, neither the prober
    nor the transport, and reports the budget as exhausted. *)
Lemma get_request_negative_budget p url max_attempts s :
  max_attempts < 0 ->
  get_request W p url max_attempts s = Some (Ok (false, exhausted_msg), s).
Proof. intros Hm. unfold get_request. now rewrite loop_exhausted. Qed.

(** The books of the loop: files are left alone, every GET follows a probe
    of its own, every sleep follows a GET of its own. *)
Lemma get_request_loop_accounting fuel p url max_attempts attempt s r s' :
  get_request_loop W fuel p url max_attempts attempt s = Some (r, s') ->
  files s' = files s /\ writes s' = writes s /\
  (requests s' - requests s <= probes s' - probes s)%nat /\
  (probes s' - probes s <= requests s' - requests s + 1)%nat /\
  (sleeps s' - sleeps s <= requests s' - requests s)%nat /\
  (requests s <= requests s')%nat /\ (probes s <= probes s')%nat /\
  (sleeps s <= sleeps s')%nat.
Proof.
  revert attempt s. induction fuel as [|fuel IH]; intros attempt s.
  - cbn [get_request_loop]. destruct (attempt <=? max_attempts); [discriminate|].
    intros [= <- <-]. repeat split; lia.
  - cbn [get_request_loop]. destruct (attempt <=? max_attempts).
    2:{ intros [= <- <-]. repeat split; lia. }
    unfold _is_internet_connected, session_get.
    destruct (connected W _); cbn [negb].
    2:{ intros [= <- <-]. unfold writes, requests, probes, sleeps, count. cbn.
        repeat split; lia. }
    destruct (http_get W _ url p) as [resp|e].
    { destruct (status_code resp =? 200); intros [= <- <-];
        unfold writes, requests, probes, sleeps, count; cbn; repeat split; lia. }
    destruct (is_ConnectionError e).
    2:{ intros [= <- <-]. unfold writes, requests, probes, sleeps, count. cbn.
        repeat split; lia. }
    cbn [sleep]. intros Hrun. apply IH in Hrun.
    unfold writes, requests, probes, sleeps, count in *.
    cbn [trace files log List.filter is_request is_probe is_sleep is_write length]
      in Hrun.
    destruct Hrun as (Hf & Hw & H1 & H2 & H3 & H4 & H5 & H6).
    repeat split; (assumption || lia).
Qed.

(** X4: whatever the network does, [get_request] changes no file, probes the
    network before every GET (so it probes as often as it GETs, or once
    more), and sleeps at most once per GET. *)
Theorem get_request_accounting p url max_attempts s r s' :
  get_request W p url max_attempts s = Some (r, s') ->
  files s' = files s /\
  (requests s' - requests s <= probes s' - probes s)%nat /\
  (probes s' - probes s <= requests s' - requests s + 1)%nat /\
  (sleeps s' - sleeps s <= requests s' - requests s)%nat.
Proof.
  intros Hrun. apply get_request_loop_accounting in Hrun. tauto.
Qed.

(** X5: when every attempt fails at connection level [get_request] gives up
    with the exhausted failure after [max_attempts + 1] GETs, and it has
    slept two seconds after each of them, the last one included. *)
Theorem get_request_sleeps_after_last_failure p url max_attempts s :
  0 <= max_attempts ->
  (forall i, connected W (probes s + i) = true) ->
  (forall i, http_get W (requests s + i) url p = Raise ConnectionError) ->
  exists s',
    get_request W p url max_attempts s = Some (Ok (false, exhausted_msg), s') /\
    requests s' = (requests s + Z.to_nat (max_attempts + 1))%nat /\
    sleeps s' = (sleeps s + Z.to_nat (max_attempts + 1))%nat /\
    exists tr, trace s' = EvSleep 2 :: tr.
Proof.
  intros Hm Hup Hfail. unfold get_request.
  assert (Hgen : forall fuel attempt s,
    (Z.to_nat (max_attempts + 1 - attempt) <= fuel)%nat ->
    (forall i, connected W (probes s + i) = true) ->
    (forall i, http_get W (requests s + i) url p = Raise ConnectionError) ->
    exists s',
      get_request_loop W fuel p url max_attempts attempt s =
        Some (Ok (false, exhausted_msg), s') /\
      requests s' = (requests s + Z.to_nat (max_attempts + 1 - attempt))%nat /\
      sleeps s' = (sleeps s + Z.to_nat (max_attempts + 1 - attempt))%nat /\
      (attempt <= max_attempts -> exists tr, trace s' = EvSleep 2 :: tr) /\
      (max_attempts < attempt -> s' = s)).
  { clear s Hup Hfail.
    induction fuel as [|fuel IH]; intros attempt s Hfuel Hup Hfail.
    - rewrite loop_exhausted by lia. exists s.
      repeat split; try reflexivity; try lia.
    - destruct (Z.leb_spec attempt max_attempts) as [Hle|Hgt].
      2:{ rewrite loop_exhausted by lia. exists s.
          repeat split; try reflexivity; try lia. }
      rewrite loop_retry; trivial.
      2:{ specialize (Hup 0%nat). now rewrite Nat.add_0_r in Hup. }
      2:{ specialize (Hfail 0%nat). now rewrite Nat.add_0_r in Hfail. }
      destruct (IH (attempt + 1) (after_failed_attempt url p s))
        as (s' & Hrun & Hreq & Hsl & Hlast & Hnone).
      + lia.
      + intros i. change (probes (after_failed_attempt url p s)) with (S (probes s)).
        specialize (Hup (S i)). now rewrite Nat.add_succ_r in Hup.
      + intros i. change (requests (after_failed_attempt url p s)) with (S (requests s)).
        specialize (Hfail (S i)). now rewrite Nat.add_succ_r in Hfail.
      + exists s'. split; [exact Hrun|].
        change (requests (after_failed_attempt url p s)) with (S (requests s)) in Hreq.
        change (sleeps (after_failed_attempt url p s)) with (S (sleeps s)) in Hsl.
        split; [lia|]. split; [lia|]. split; [|lia].
        intros _. destruct (Z.leb_spec (attempt + 1) max_attempts) as [Hle'|Hgt'].
        * now apply Hlast.
        * rewrite (Hnone Hgt'). eexists. reflexivity. }
  destruct (Hgen (Z.to_nat (max_attempts + 1)) 0 s) as (s' & Hrun & Hreq & Hsl & Hlast & _);
    trivial; [lia|].
  exists s'. rewrite Z.sub_0_r in Hreq, Hsl. auto.
Qed.

End RequestEngineMore.

(** * Further properties of the downloader *)

Section DownloaderMore.

Context (W : World).

Lemma frames_refl path s : frames path s s.
Proof. split; reflexivity. Qed.

Lemma frames_trans path s1 s2 s3 :
  frames path s1 s2 -> frames path s2 s3 -> frames path s1 s3.
Proof.
  intros [Hf1 Hr1] [Hf2 Hr2]. split; [|congruence].
  intros p Hp. rewrite Hf2, Hf1; trivial.
Qed.

Lemma frames_log path e s : is_request e = false -> frames path s (log e s).
Proof.
  intros He. split; [reflexivity|].
  unfold requests, count. cbn. now rewrite He.
Qed.

Lemma disk_op_frames path e effect s r s' :
  (forall m p, p <> path -> effect m !! p = m !! p) ->
  is_request e = false ->
  disk_op W e effect s = (r, s') -> frames path s s'.
Proof.
  intros Heff He. unfold disk_op.
  destruct (disk_ok W _); intros [= <- <-].
  - split; [intros p Hp; now apply Heff|].
    unfold requests, count. cbn. now rewrite He.
  - now apply frames_log.
Qed.

Lemma _cleanup_file_frames path s r s' :
  _cleanup_file W path s = (r, s') -> frames path s s'.
Proof.
  unfold _cleanup_file, bind, path_exists.
  destruct (bool_decide _).
  - apply disk_op_frames; [|reflexivity].
    intros m p Hp. now apply lookup_delete_ne.
  - intros [= <- <-]. apply frames_refl.
Qed.

Lemma file_write_frames path chunk s r s' :
  file_write W path chunk s = (r, s') -> frames path s s'.
Proof.
  apply disk_op_frames; [|reflexivity].
  intros m p Hp. now apply lookup_alter_ne.
Qed.

Lemma open_wb_frames path s r s' :
  open_wb W path s = (r, s') -> frames path s s'.
Proof.
  apply disk_op_frames; [|reflexivity].
  intros m p Hp. now apply lookup_insert_ne.
Qed.

Lemma os_makedirs_frames path folder s r s' :
  os_makedirs W folder s = (r, s') -> frames path s s'.
Proof. apply disk_op_frames; [|reflexivity]. reflexivity. Qed.

Lemma poll_cancel_frames path cc s r s' :
  poll_cancel cc s = (r, s') -> frames path s s'.
Proof.
  destruct cc; cbn; intros [= <- <-];
    [now apply frames_log | apply frames_refl].
Qed.

Lemma report_progress_frames path pc d t s r s' :
  report_progress pc d t s = (r, s') -> frames path s s'.
Proof.
  destruct pc; cbn; intros [= <- <-];
    [now apply frames_log | apply frames_refl].
Qed.

Lemma abort_frames path (msg : string) s (r : result (bool * string)) s' :
  bind response_close
    (fun _ => bind (_cleanup_file W path) (fun _ => ret (false, msg))) s = (r, s') ->
  frames path s s'.
Proof.
  unfold bind, response_close.
  destruct (_cleanup_file W path (log EvClose s)) as [[[]|e] s1] eqn:Hc;
    intros [= <- <-];
    (eapply frames_trans;
     [apply (frames_log path EvClose s); reflexivity
     | eapply _cleanup_file_frames, Hc]).
Qed.

Ltac chain_frames :=
  repeat (eapply frames_trans; [eassumption|]);
  first [assumption | apply frames_refl].

(** The chunk loop works on the destination file and on nothing else. *)
Lemma iter_content_loop_frames path pc cc total fault chunks downloaded s r s' :
  iter_content_loop W path pc cc total fault chunks downloaded s = (r, s') ->
  frames path s s'.
Proof.
  revert downloaded s. induction chunks as [|chunk rest IH]; intros downloaded s.
  - cbn [iter_content_loop]. destruct fault.
    + intros [= <- <-]. apply frames_refl.
    + cbn. intros [= <- <-]. now apply frames_log.
  - cbn [iter_content_loop]. unfold bind at 1.
    destruct (poll_cancel cc s) as [[stop|e] s1] eqn:Hpoll;
      apply (poll_cancel_frames path) in Hpoll.
    2:{ intros [= <- <-]. chain_frames. }
    destruct stop.
    { intros Hrun. apply abort_frames in Hrun. chain_frames. }
    unfold bind at 1.
    destruct ((if downloaded mod 10000000 =? 0
               then _is_internet_connected W else ret true) s1)
      as [[up|e] s2] eqn:Hprobe.
    2:{ destruct (downloaded mod 10000000 =? 0); discriminate. }
    assert (Hf2 : frames path s1 s2).
    { destruct (downloaded mod 10000000 =? 0); injection Hprobe as <- <-;
        [now apply frames_log | apply frames_refl]. }
    clear Hprobe. destruct up; cbn [negb].
    2:{ intros Hrun. apply abort_frames in Hrun. chain_frames. }
    unfold bind at 1.
    destruct (file_write W path chunk s2) as [[[]|e] s3] eqn:Hw;
      apply file_write_frames in Hw.
    2:{ intros [= <- <-]. chain_frames. }
    unfold bind at 1.
    destruct (report_progress pc _ total s3) as [[[]|e] s4] eqn:Hp;
      apply (report_progress_frames path) in Hp.
    2:{ intros [= <- <-]. chain_frames. }
    intros Hrun. apply IH in Hrun. chain_frames.
Qed.

Lemma download_try_frames url dest path pc cc s r s' :
  download_try W url dest path pc cc s = (r, s') ->
  frames path (log (EvGetStream url) s) s'.
Proof.
  unfold download_try, bind at 1, session_get_stream.
  destruct (http_get_stream W _ url) as [resp|e].
  2:{ intros [= <- <-]. apply frames_refl. }
  destruct (stream_status resp =? 404).
  { intros [= <- <-]. apply frames_refl. }
  unfold bind at 1.
  destruct (stream_length resp); cbn [ret raise];
    try (intros [= <- <-]; apply frames_refl);
    (unfold bind at 1;
     destruct (_cleanup_file W path _) as [[[]|e] s1] eqn:Hc;
       apply _cleanup_file_frames in Hc;
       [|intros [= <- <-]; chain_frames];
     unfold bind at 1;
     destruct (os_makedirs W dest s1) as [[[]|e] s2] eqn:Hm;
       apply (os_makedirs_frames path) in Hm;
       [|intros [= <- <-]; chain_frames];
     unfold bind at 1;
     destruct (open_wb W path s2) as [[[]|e] s3] eqn:Ho;
       apply open_wb_frames in Ho;
       [|intros [= <- <-]; chain_frames];
     intros Hrun; apply iter_content_loop_frames in Hrun; chain_frames).
Qed.

(** X6: whatever the network, the disk and the callbacks do, a call of
    [download_file] makes exactly one request (there is no retry at this
    layer) and leaves every file other than its destination as it was. *)
Theorem download_touches_only_destination url dest pc cc s r s' file_name :
  download_file W url dest pc cc s = (r, s') ->
  _generate_filename url = Ok file_name ->
  (forall p, p <> Py.path_join dest file_name -> files s' !! p = files s !! p) /\
  requests s' = S (requests s).
Proof.
  unfold download_file, bind at 1, lift. intros Hrun Hname. rewrite Hname in Hrun.
  set (path := Py.path_join dest file_name) in *.
  unfold try_except in Hrun.
  destruct (download_try W url dest path pc cc s) as [[a|e] s1] eqn:Htry;
    apply download_try_frames in Htry.
  - injection Hrun as <- <-. exact Htry.
  - assert (Hh : frames path s1 s').
    { unfold download_except in Hrun.
      destruct (is_ConnectionError e || is_ChunkedEncodingError e).
      - unfold bind in Hrun.
        destruct (_cleanup_file W path s1) as [[[]|e'] s2] eqn:Hc;
          apply _cleanup_file_frames in Hc; injection Hrun as <- <-; exact Hc.
      - destruct (is_IOError e); injection Hrun as <- <-; apply frames_refl. }
    exact (frames_trans _ _ _ _ Htry Hh).
Qed.

(** X7: an unusable URL is found out before anything happens: when the
    classifier raises, [download_file] raises the same [IndexError] without
    a request and without touching the disk. *)
Theorem download_raises_on_short_url url dest pc cc s :
  short_for_rule url = true ->
  download_file W url dest pc cc s = (Raise IndexError, s).
Proof.
  intros Hshort. unfold download_file, bind, lift.
  now rewrite (_generate_filename_short url Hshort).
Qed.

(** X8: a content-length that [int] rejects makes [download_file] raise
    [ValueError]: no failure outcome is returned, and since the cleanup has
    not run yet the files are as before the call. *)
Theorem download_raises_on_bad_length url dest pc cc s resp file_name :
  _generate_filename url = Ok file_name ->
  http_get_stream W (requests s) url = Ok resp ->
  stream_status resp <> 404 ->
  stream_length resp = LengthGarbage ->
  download_file W url dest pc cc s = (Raise ValueError, log (EvGetStream url) s).
Proof.
  intros Hname Hget Hstatus Hlen.
  unfold download_file, bind at 1, lift. rewrite Hname.
  unfold try_except, download_try, bind at 1, session_get_stream.
  fold (requests s). rewrite Hget.
  replace (stream_status resp =? 404) with false
    by (symmetry; now apply Z.eqb_neq).
  unfold bind at 1. rewrite Hlen. reflexivity.
Qed.

(** X9: a connection-level failure of the GET itself costs the file of an
    earlier download: with a disk that accepts the removal, [download_file]
    returns the interrupted failure and whatever was at the destination
    path before the call is gone. *)
Theorem download_connection_error_removes_old_file url dest pc cc s e file_name :
  _generate_filename url = Ok file_name ->
  http_get_stream W (requests s) url = Raise e ->
  is_ConnectionError e || is_ChunkedEncodingError e = true ->
  disk_ok W (count is_disk (trace s)) = true ->
  exists s',
    download_file W url dest pc cc s = (Ok (false, interrupted_msg), s') /\
    files s' = delete (Py.path_join dest file_name) (files s).
Proof.
  intros Hname Hget He Hdisk.
  unfold download_file, bind at 1, lift. rewrite Hname.
  set (path := Py.path_join dest file_name).
  unfold try_except, download_try, bind at 1, session_get_stream.
  fold (requests s). rewrite Hget. unfold download_except. rewrite He.
  unfold bind, _cleanup_file, bind, path_exists, os_remove, disk_op.
  cbn [files trace log List.filter is_disk count].
  destruct (bool_decide (is_Some (files s !! path))) eqn:Hthere.
  - change (count is_disk (trace (log (EvGetStream url) s)))
      with (count is_disk (trace s)).
    rewrite Hdisk. eexists. split; reflexivity.
  - eexists. split; [reflexivity|]. cbn [files log ret].
    apply bool_decide_eq_false in Hthere. apply eq_None_not_Some in Hthere.
    symmetry. now apply delete_id.
Qed.

Lemma fmap_append_twice (o : option bytes) (a b : bytes) :
  (fun old => old ++ b) <$> ((fun old => old ++ a) <$> o) =
  (fun old => old ++ (a ++ b)) <$> o.
Proof. destruct o; cbn; [now rewrite <- app_assoc | reflexivity]. Qed.

(** With a reachable network, a working disk and nobody cancelling, the
    loop consumes the whole body: every chunk is appended to the file and
    reported, and the loop ends as the body ends. *)
Lemma iter_content_loop_runs_through path pc cc total fault chunks :
  (forall k, connected W k = true) ->
  (forall k, disk_ok W k = true) ->
  never_cancels cc ->
  forall downloaded s, exists s',
    iter_content_loop W path pc cc total fault chunks downloaded s =
      (match fault with Some e => Raise e | None => Ok (true, path) end, s') /\
    files s' !! path = (fun old => old ++ List.concat chunks) <$> (files s !! path) /\
    writes s' = (writes s + length chunks)%nat /\
    progress_samples (trace s') =
      progress_samples (trace s) ++
      match pc with
      | Some _ => map (fun d => (d, total)) (running_totals downloaded chunks)
      | None => []
      end.
Proof.
  intros Hup Hdisk Hnc. induction chunks as [|chunk rest IH]; intros downloaded s.
  - cbn [iter_content_loop]. destruct fault; eexists; (split; [reflexivity|]);
      cbn [List.concat running_totals map trace files log length response_close];
      rewrite Nat.add_0_r;
      (split; [destruct (files s !! path); cbn; now rewrite ?app_nil_r|]);
      (split; [reflexivity|]); destruct pc; now rewrite app_nil_r.
  - destruct cc as [ask|], pc as [sink|];
      cbn [iter_content_loop poll_cancel report_progress never_cancels] in *;
      unfold bind, ret, _is_internet_connected, file_write, disk_op;
      rewrite ?Hnc;
      (destruct (downloaded mod 10000000 =? 0); [rewrite Hup|]; cbn [negb];
       rewrite Hdisk;
       match goal with
       | |- context [iter_content_loop W path _ _ total fault rest ?d ?st] =>
           destruct (IH d st) as (s' & Hrun & Hf & Hw & Hp)
       end;
       rewrite Hrun; exists s'; (split; [reflexivity|]);
       cbn [files trace log] in Hf; rewrite lookup_alter_eq in Hf;
       unfold writes, count in *;
       cbn [trace log List.filter is_write length progress_samples] in Hw, Hp;
       (split; [rewrite Hf; exact (fmap_append_twice _ _ _)|]);
       (split; [cbn [length]; lia|]);
       rewrite Hp; cbn [running_totals map]; now rewrite <- ?app_assoc, ?app_nil_r).
Qed.

Lemma _cleanup_file_run path s :
  (forall k, disk_ok W k = true) ->
  exists s',
    _cleanup_file W path s = (Ok tt, s') /\
    files s' = delete path (files s) /\
    writes s' = writes s /\
    progress_samples (trace s') = progress_samples (trace s) /\
    cancel_polls s' = cancel_polls s.
Proof.
  intros Hdisk.
  unfold _cleanup_file, bind, path_exists, os_remove, disk_op, ret.
  destruct (bool_decide (is_Some (files s !! path))) eqn:Hthere.
  - rewrite Hdisk. eexists. split; [reflexivity|]. now cbn.
  - eexists. split; [reflexivity|]. split; [|now repeat split].
    apply bool_decide_eq_false in Hthere. apply eq_None_not_Some in Hthere.
    symmetry. now apply delete_id.
Qed.

(** The [try] block on a healthy run: the body is consumed to its end. *)
Lemma download_try_runs_through url dest path pc cc s resp :
  (forall k, connected W k = true) ->
  (forall k, disk_ok W k = true) ->
  never_cancels cc ->
  http_get_stream W (requests s) url = Ok resp ->
  stream_status resp <> 404 ->
  stream_length resp <> LengthGarbage ->
  exists s',
    download_try W url dest path pc cc s =
      (match stream_fault resp with
       | Some e => Raise e
       | None => Ok (true, path)
       end, s') /\
    files s' !! path = Some (List.concat (stream_chunks resp)) /\
    writes s' = (writes s + length (stream_chunks resp))%nat /\
    progress_samples (trace s') =
      progress_samples (trace s) ++
      match pc with
      | Some _ => map (fun d => (d, total_size_of resp))
                    (running_totals 0 (stream_chunks resp))
      | None => []
      end.
Proof.
  intros Hup Hdisk Hnc Hget Hstatus Hlen.
  unfold download_try, bind at 1, session_get_stream.
  fold (requests s). rewrite Hget.
  replace (stream_status resp =? 404) with false
    by (symmetry; now apply Z.eqb_neq).
  set (s1 := log (EvGetStream url) s).
  assert (Htotal :
    match stream_length resp with
    | LengthAbsent => ret 0
    | LengthInt n => ret n
    | LengthGarbage => raise ValueError
    end s1 = (Ok (total_size_of resp), s1)).
  { unfold total_size_of. destruct (stream_length resp); [reflexivity..|congruence]. }
  unfold bind at 1. rewrite Htotal.
  destruct (_cleanup_file_run path s1 Hdisk) as (s2 & Hc2 & Hf2 & Hw2 & Hp2 & _).
  unfold bind at 1. rewrite Hc2.
  unfold bind at 1, os_makedirs, open_wb, disk_op. rewrite Hdisk.
  unfold bind at 1. cbn [trace files]. rewrite Hdisk.
  match goal with
  | |- context [iter_content_loop W path pc cc ?t ?f ?cs 0 ?st] =>
      destruct (iter_content_loop_runs_through path pc cc t f cs Hup Hdisk Hnc 0 st)
        as (s' & Hrun & Hf & Hw & Hp)
  end.
  rewrite Hrun. exists s'. split; [reflexivity|].
  cbn [files trace] in Hf. rewrite lookup_insert_eq in Hf.
  unfold writes, count in *. subst s1.
  cbn [trace log List.filter is_write length progress_samples] in Hw, Hp, Hw2, Hp2.
  split; [exact Hf|]. split; [lia|]. now rewrite Hp, Hp2.
Qed.

(** The byte counts reported grow from chunk to chunk and end at the size
    of the body. *)
Lemma running_totals_sorted acc chunks :
  StronglySorted Z.le (running_totals acc chunks) /\
  Forall (fun d => acc <= d) (running_totals acc chunks).
Proof.
  revert acc. induction chunks as [|chunk rest IH]; intros acc; cbn [running_totals].
  - split; constructor.
  - destruct (IH (acc + Z.of_nat (length chunk))) as [Hs Hf].
    split; constructor; trivial; try lia.
    eapply Forall_impl; [exact Hf|]. cbn. intros. lia.
Qed.

Lemma running_totals_last acc chunk rest :
  last (running_totals acc (chunk :: rest)) =
  Some (acc + Z.of_nat (length (List.concat (chunk :: rest)))).
Proof.
  revert acc chunk. induction rest as [|next rest IH]; intros acc chunk.
  - cbn. rewrite app_nil_r. reflexivity.
  - change (running_totals acc (chunk :: next :: rest))
      with ((acc + Z.of_nat (length chunk)) ::
            running_totals (acc + Z.of_nat (length chunk)) (next :: rest)).
    assert (Hne : exists d ds,
      running_totals (acc + Z.of_nat (length chunk)) (next :: rest) = d :: ds)
      by (cbn; eauto).
    destruct Hne as (d & ds & Hds). rewrite Hds. cbn [last]. rewrite <- Hds, IH.
    cbn [List.concat]. rewrite !length_app. f_equal. lia.
Qed.

(** X10: on a healthy run (network reachable, disk working, nobody
    cancelling, status not 404, a content-length [int] accepts, a body that
    ends without error) [download_file] returns success with the destination
    path, and the file there holds exactly the chunks of the body in order,
    whatever was at the path before; one write was issued per chunk. *)
Theorem download_writes_the_body url dest pc cc s resp file_name :
  (forall k, connected W k = true) ->
  (forall k, disk_ok W k = true) ->
  never_cancels cc ->
  _generate_filename url = Ok file_name ->
  http_get_stream W (requests s) url = Ok resp ->
  stream_status resp <> 404 ->
  stream_length resp <> LengthGarbage ->
  stream_fault resp = None ->
  exists s',
    download_file W url dest pc cc s =
      (Ok (true, Py.path_join dest file_name), s') /\
    files s' !! Py.path_join dest file_name =
      Some (List.concat (stream_chunks resp)) /\
    writes s' = (writes s + length (stream_chunks resp))%nat.
Proof.
  intros Hup Hdisk Hnc Hname Hget Hstatus Hlen Hfault.
  unfold download_file, bind at 1, lift. rewrite Hname. unfold try_except.
  destruct (download_try_runs_through url dest (Py.path_join dest file_name)
              pc cc s resp Hup Hdisk Hnc Hget Hstatus Hlen)
    as (s' & Hrun & Hf & Hw & _).
  rewrite Hrun, Hfault. exists s'. auto.
Qed.

(** X11: on such a run with a progress callback, the callback is called once
    per chunk, with the bytes downloaded so far and the total read off the
    content-length header (0 when the header is missing); the byte counts
    never decrease and, for a non-empty body, the last one is the size of
    the file written. *)
Theorem download_reports_progress url dest sink cc s resp file_name :
  (forall k, connected W k = true) ->
  (forall k, disk_ok W k = true) ->
  never_cancels cc ->
  _generate_filename url = Ok file_name ->
  http_get_stream W (requests s) url = Ok resp ->
  stream_status resp <> 404 ->
  stream_length resp <> LengthGarbage ->
  stream_fault resp = None ->
  exists s',
    download_file W url dest (Some sink) cc s =
      (Ok (true, Py.path_join dest file_name), s') /\
    progress_samples (trace s') =
      progress_samples (trace s) ++
      map (fun d => (d, total_size_of resp)) (running_totals 0 (stream_chunks resp)) /\
    StronglySorted Z.le (running_totals 0 (stream_chunks resp)) /\
    (stream_chunks resp <> [] ->
     last (running_totals 0 (stream_chunks resp)) =
       Some (Z.of_nat (length (List.concat (stream_chunks resp))))).
Proof.
  intros Hup Hdisk Hnc Hname Hget Hstatus Hlen Hfault.
  unfold download_file, bind at 1, lift. rewrite Hname. unfold try_except.
  destruct (download_try_runs_through url dest (Py.path_join dest file_name)
              (Some sink) cc s resp Hup Hdisk Hnc Hget Hstatus Hlen)
    as (s' & Hrun & _ & _ & Hp).
  rewrite Hrun, Hfault. exists s'. split; [reflexivity|]. split; [exact Hp|].
  split; [apply running_totals_sorted|].
  intros Hne. destruct (stream_chunks resp) as [|chunk rest]; [congruence|].
  now rewrite running_totals_last.
Qed.

(** X12: an error of the transport in mid-stream that is neither a
    connection error nor a chunked-encoding error (a content that does not
    decode, say) is an [IOError] all the same: it is reported as the write
    error, and the partial file, holding every chunk
    received before the error, is left at the destination path. *)
Theorem download_other_error_leaves_partial_file url dest pc cc s resp file_name e :
  (forall k, connected W k = true) ->
  (forall k, disk_ok W k = true) ->
  never_cancels cc ->
  _generate_filename url = Ok file_name ->
  http_get_stream W (requests s) url = Ok resp ->
  stream_status resp <> 404 ->
  stream_length resp <> LengthGarbage ->
  stream_fault resp = Some e ->
  is_ConnectionError e || is_ChunkedEncodingError e = false ->
  is_IOError e = true ->
  exists s',
    download_file W url dest pc cc s = (Ok (false, write_error_msg), s') /\
    files s' !! Py.path_join dest file_name =
      Some (List.concat (stream_chunks resp)).
Proof.
  intros Hup Hdisk Hnc Hname Hget Hstatus Hlen Hfault Hconn Hio.
  unfold download_file, bind at 1, lift. rewrite Hname. unfold try_except.
  destruct (download_try_runs_through url dest (Py.path_join dest file_name)
              pc cc s resp Hup Hdisk Hnc Hget Hstatus Hlen)
    as (s' & Hrun & Hf & _ & _).
  rewrite Hrun, Hfault. unfold download_except. rewrite Hconn, Hio.
  exists s'. auto.
Qed.

(** X13: a connection error or chunked-encoding error in mid-stream gives
    the interrupted failure; every chunk received before it had been
    written, and the file holding them is removed. *)
Theorem download_transport_error_removes_file url dest pc cc s resp file_name e :
  (forall k, connected W k = true) ->
  (forall k, disk_ok W k = true) ->
  never_cancels cc ->
  _generate_filename url = Ok file_name ->
  http_get_stream W (requests s) url = Ok resp ->
  stream_status resp <> 404 ->
  stream_length resp <> LengthGarbage ->
  stream_fault resp = Some e ->
  is_ConnectionError e || is_ChunkedEncodingError e = true ->
  exists s',
    download_file W url dest pc cc s = (Ok (false, interrupted_msg), s') /\
    writes s' = (writes s + length (stream_chunks resp))%nat /\
    files s' !! Py.path_join dest file_name = None.
Proof.
  intros Hup Hdisk Hnc Hname Hget Hstatus Hlen Hfault Hconn.
  unfold download_file, bind at 1, lift. rewrite Hname. unfold try_except.
  destruct (download_try_runs_through url dest (Py.path_join dest file_name)
              pc cc s resp Hup Hdisk Hnc Hget Hstatus Hlen)
    as (s1 & Hrun & _ & Hw & _).
  rewrite Hrun, Hfault. unfold download_except. rewrite Hconn. unfold bind.
  destruct (_cleanup_file_run (Py.path_join dest file_name) s1 Hdisk)
    as (s' & Hc & Hf & Hw' & _).
  rewrite Hc. exists s'. split; [reflexivity|]. split; [congruence|].
  rewrite Hf. apply lookup_delete_eq.
Qed.



(** X15: the probe before the first chunk: when it finds the network down,
    nothing of the body is written, the file just opened is removed and the
    interrupted failure returned. *)
Theorem download_disconnected_at_start url dest pc cc s resp file_name :
  connected W (probes s) = false ->
  (forall k, disk_ok W k = true) ->
  never_cancels cc ->
  _generate_filename url = Ok file_name ->
  http_get_stream W (requests s) url = Ok resp ->
  stream_status resp <> 404 ->
  stream_length resp <> LengthGarbage ->
  stream_chunks resp <> [] ->
  exists s',
    download_file W url dest pc cc s = (Ok (false, interrupted_msg), s') /\
    writes s' = writes s /\
    probes s' = S (probes s) /\
    files s' !! Py.path_join dest file_name = None.
Proof.
  intros Hdown Hdisk Hnc Hname Hget Hstatus Hlen Hne.
  unfold download_file, bind at 1, lift. rewrite Hname.
  set (path := Py.path_join dest file_name).
  unfold try_except, download_try, bind at 1, session_get_stream.
  fold (requests s). rewrite Hget.
  replace (stream_status resp =? 404) with false
    by (symmetry; now apply Z.eqb_neq).
  set (s1 := log (EvGetStream url) s).
  assert (Htotal :
    match stream_length resp with
    | LengthAbsent => ret 0
    | LengthInt n => ret n
    | LengthGarbage => raise ValueError
    end s1 = (Ok (total_size_of resp), s1)).
  { unfold total_size_of. destruct (stream_length resp); [reflexivity..|congruence]. }
  unfold bind at 1. rewrite Htotal.
  destruct (_cleanup_file_ok W path s1 Hdisk) as (s2 & Hc2 & _ & Hw2 & Hp2).
  unfold bind at 1. rewrite Hc2.
  unfold bind at 1, os_makedirs, open_wb, disk_op. rewrite Hdisk.
  unfold bind at 1. cbn [trace files]. rewrite Hdisk.
  destruct (stream_chunks resp) as [|chunk rest]; [congruence|].
  cbn [iter_content_loop]. unfold bind at 1.
  assert (Hprobe : forall st, probes st = probes s ->
            _is_internet_connected W st = (Ok false, log (EvProbe false) st)).
  { intros st Hst. unfold _is_internet_connected. fold (probes st).
    now rewrite Hst, Hdown. }
  destruct cc as [ask|]; cbn [poll_cancel never_cancels] in *; rewrite ?Hnc;
    unfold ret at 1; change (0 mod 10000000 =? 0) with true; cbv iota;
    unfold bind at 1;
    rewrite Hprobe
      by (unfold probes, count in *; subst s1;
          cbn [trace log List.filter is_probe length] in *; exact Hp2);
    cbn [negb]; unfold bind, response_close;
    match goal with
    | |- context [_cleanup_file W path ?st] =>
        destruct (_cleanup_file_ok W path st Hdisk) as (s' & Hc & Hf & Hw & Hp);
        rewrite Hc
    end;
    exists s'; (split; [reflexivity|]);
    unfold writes, probes, count in *; subst s1;
    cbn [trace log List.filter is_write is_probe length] in Hw, Hp, Hw2, Hp2;
    (split; [lia|]); (split; [lia|]); rewrite Hf; apply lookup_delete_eq.
Qed.

Lemma _cleanup_file_noop path s :
  files s !! path = None -> _cleanup_file W path s = (Ok tt, s).
Proof.
  intros Hnone. unfold _cleanup_file, bind, path_exists.
  rewrite bool_decide_eq_false_2; [reflexivity|].
  rewrite Hnone. now apply is_Some_None.
Qed.

(** X16: [_cleanup_file] on a path that holds no file makes no call to the
    disk, so it succeeds even on a disk that refuses everything; and after
    any cleanup that succeeded, a second one has nothing to do. *)
Theorem _cleanup_file_absent path s :
  files s !! path = None ->
  _cleanup_file W path s = (Ok tt, s) /\
  forall s0 s1, _cleanup_file W path s0 = (Ok tt, s1) ->
                _cleanup_file W path s1 = (Ok tt, s1).
Proof.
  intros Hnone. split; [now apply _cleanup_file_noop|].
  intros s0 s1 Hrun. apply _cleanup_file_noop.
  pose proof (_cleanup_file_outcome W path s0) as H. now rewrite Hrun in H.
Qed.

(** X17: [_cleanup_file] never touches another path, and when the disk
    refuses the removal it raises [OSError] with the file still in place. *)
Theorem _cleanup_file_touches_only_path path s r s' :
  _cleanup_file W path s = (r, s') ->
  (forall p, p <> path -> files s' !! p = files s !! p) /\
  (r = Ok tt /\ files s' !! path = None \/
   r = Raise OSError /\ files s' = files s /\ is_Some (files s !! path)).
Proof.
  intros Hrun. split; [now apply (_cleanup_file_frames path s r s')|].
  revert Hrun. unfold _cleanup_file, bind, path_exists, os_remove, disk_op.
  destruct (bool_decide (is_Some (files s !! path))) eqn:Hthere.
  - apply bool_decide_eq_true in Hthere.
    destruct (disk_ok W _); intros [= <- <-]; cbn [files log].
    + left. split; [reflexivity | apply lookup_delete_eq].
    + right. auto.
  - apply bool_decide_eq_false in Hthere. intros [= <- <-].
    left. split; [reflexivity | now apply eq_None_not_Some].
Qed.

Lemma check_connection_outcome s :
  check_connection W s =
    (match http_get W (requests s) "https://uldk.gugik.gov.pl/" [] with
     | Ok resp => Ok (status_code resp =? 200)
     | Raise e => if is_Timeout e || is_ConnectionError e then Ok false else Raise e
     end,
     log (EvGet "https://uldk.gugik.gov.pl/" []) s).
Proof.
  unfold check_connection, try_except, bind, session_get. fold (requests s).
  destruct (http_get W (requests s) _ []) as [resp|e]; [reflexivity|].
  now destruct (is_Timeout e || is_ConnectionError e).
Qed.

(** X18: [check_connection] says yes exactly when the service answers its
    single GET with status 200; it never raises for a timeout or a
    connection error (the answer is then no), it raises for any other
    exception of the transport, and it neither probes the network nor
    touches a file. *)
Theorem check_connection_yes_iff_200 s :
  (fst (check_connection W s) = Ok true <->
   exists resp,
     http_get W (requests s) "https://uldk.gugik.gov.pl/" [] = Ok resp /\
     status_code resp = 200) /\
  (forall e, fst (check_connection W s) = Raise e ->
     is_Timeout e = false /\ is_ConnectionError e = false /\
     http_get W (requests s) "https://uldk.gugik.gov.pl/" [] = Raise e) /\
  requests (snd (check_connection W s)) = S (requests s) /\
  probes (snd (check_connection W s)) = probes s /\
  files (snd (check_connection W s)) = files s.
Proof.
  rewrite check_connection_outcome. cbn [fst snd]. repeat split.
  - destruct (http_get W _ _ []) as [resp|e].
    + intros [= H]. exists resp. split; [reflexivity | now apply Z.eqb_eq].
    + destruct (is_Timeout e || is_ConnectionError e); discriminate.
  - intros (resp & -> & Hcode). f_equal. now apply Z.eqb_eq.
  - destruct (http_get W _ _ []) as [resp|e']; [discriminate|].
    destruct (is_Timeout e') eqn:Ht; cbn [orb] in H; [discriminate|].
    destruct (is_ConnectionError e'); [discriminate|]. now injection H as <-.
  - destruct (http_get W _ _ []) as [resp|e']; [discriminate|].
    destruct (is_Timeout e'); cbn [orb] in H; [discriminate|].
    destruct (is_ConnectionError e') eqn:Hc; [discriminate|]. now injection H as <-.
  - destruct (http_get W _ _ []) as [resp|e']; [discriminate|].
    destruct (is_Timeout e' || is_ConnectionError e'); [discriminate|].
    now injection H as <-.
Qed.

End DownloaderMore.

(** * Further properties of the layer extractor *)

Section GetWmsLayersMore.

Context (W : World).
Context (fromstring_bytes fromstring_str : string -> result (option element)).

Lemma layers_of_root_clean root :
  NoDup (layers_of_root root) /\
  forall x, x ∈ layers_of_root root -> x <> EmptyString.
Proof.
  unfold layers_of_root. rewrite keys_fromkeys. split.
  - apply NoDup_dedup_keep_first.
  - intros x Hx. apply (collect_layers_nonempty root).
    now apply elem_of_dedup_keep_first.
Qed.

(** X23: [get_wms_layers] always comes back; it changes no file and issues
    at most four GETs (the default budget of three retries). *)
Theorem get_wms_layers_budget url service s :
  exists r s',
    get_wms_layers W fromstring_bytes fromstring_str url service s = Some (r, s') /\
    files s' = files s /\
    (requests s <= requests s' <= requests s + 4)%nat.
Proof.
  unfold get_wms_layers.
  destruct (get_request_total W
              [("SERVICE", service); ("REQUEST", "GetCapabilities");
               ("VERSION", "1.3.0")] url 3 s)
    as (r & s' & Hrun & Hlo & Hhi & Hfs).
  rewrite Hrun. change (Z.to_nat (3 + 1)) with 4%nat in Hhi.
  destruct r as [[ok payload]|e]; [|eauto 10].
  destruct (negb ok || (payload =? "")%string); [eauto 10|].
  destruct (match fromstring_bytes payload with
            | Ok root => Ok root
            | Raise _ => fromstring_str payload
            end) as [[root|]|e]; eauto 10.
Qed.

(** X24: whatever it returns, the list has no duplicates and no empty
    name. *)
Theorem get_wms_layers_result_clean url service s layers s' :
  get_wms_layers W fromstring_bytes fromstring_str url service s =
    Some (Ok layers, s') ->
  NoDup layers /\ forall x, x ∈ layers -> x <> EmptyString.
Proof.
  unfold get_wms_layers.
  destruct (get_request W _ url 3 s) as [[[[ok payload]|e] s1]|]; try discriminate.
  destruct (negb ok || (payload =? "")%string).
  { intros [= <- <-]. split; [constructor | intros x Hx; inversion Hx]. }
  destruct (match fromstring_bytes payload with
            | Ok root => Ok root
            | Raise _ => fromstring_str payload
            end) as [[root|]|e]; try discriminate.
  intros [= <- <-]. apply layers_of_root_clean.
Qed.

(** X25: a request that fails is not an error for [get_wms_layers]: when
    the prober finds the network down, or the server answers with a status
    other than 200, the result is the empty list, whatever the parser would
    make of anything. *)
Theorem get_wms_layers_swallows_failure url service s :
  connected W (probes s) = false \/
  (connected W (probes s) = true /\
   exists r, http_get W (requests s) url
               [("SERVICE", service); ("REQUEST", "GetCapabilities");
                ("VERSION", "1.3.0")] = Ok r /\
             status_code r <> 200) ->
  exists s',
    get_wms_layers W fromstring_bytes fromstring_str url service s =
      Some (Ok [], s').
Proof.
  intros [Hdown | (Hup & r & Hget & Hcode)];
    unfold get_wms_layers, get_request; change (Z.to_nat (3 + 1)) with 4%nat.
  - cbn [get_request_loop]. change (0 <=? 3) with true. cbv iota.
    unfold _is_internet_connected. fold (probes s). rewrite Hdown.
    cbn [negb]. eauto.
  - rewrite (loop_answer W _ _ _ _ _ _ r) by (trivial; lia).
    replace (status_code r =? 200) with false
      by (symmetry; now apply Z.eqb_neq).
    cbn [negb orb]. eauto.
Qed.

(** X26: when the recovering parser keeps nothing of the payload and hands
    back [None], [get_wms_layers] does not return the empty list: it raises
    [AttributeError]. *)
Theorem get_wms_layers_raises_without_root url service s payload s1 :
  get_request W [("SERVICE", service); ("REQUEST", "GetCapabilities");
                 ("VERSION", "1.3.0")] url 3 s
    = Some (Ok (true, payload), s1) ->
  payload <> EmptyString ->
  fromstring_bytes payload = Ok None ->
  get_wms_layers W fromstring_bytes fromstring_str url service s =
    Some (Raise AttributeError, s1).
Proof.
  intros Hget Hpayload Hparse. unfold get_wms_layers. rewrite Hget.
  cbn [negb orb]. destruct (String.eqb_spec payload ""); [contradiction|].
  now rewrite Hparse.
Qed.

End GetWmsLayersMore.

(** The XPath query looks below [Capability] elements only. *)
Lemma xpath_names_at_outside_capability uri e :
  Forall (fun d => has_tag (Some uri) "Capability" d = false) (e :: descendants e) ->
  xpath_names_at uri false false e = [].
Proof.
  induction e as [ns l d t cs IH] using element_ind'. intros Hcap.
  apply Forall_cons_iff in Hcap as [He Hdesc].
  cbn [xpath_names_at andb app]. rewrite He. cbn [orb andb]. clear He.
  cbn [descendants] in Hdesc.
  induction IH as [|c cs' Hc _ IHcs]; [reflexivity|].
  cbn [flat_map] in *. apply Forall_app in Hdesc as [Hhere Hrest].
  rewrite (Hc Hhere), (IHcs Hrest). reflexivity.
Qed.

(** X27: under a default namespace only layers below a [Capability] element
    count: a document in which no element below the root is a [Capability]
    of that namespace lists no layer, however many [Layer] elements it
    has. *)
Theorem namespaced_document_needs_capability uri root :
  el_nsmap_default root = Some uri -> uri <> EmptyString ->
  Forall (fun d => has_tag (Some uri) "Capability" d = false) (descendants root) ->
  layers_of_root root = [].
Proof.
  intros Hns Huri Hcap. unfold layers_of_root, collect_layers. rewrite Hns.
  destruct (String.eqb_spec uri ""); [contradiction|]. cbn [negb].
  unfold collect_namespaced, xpath_capability_layer_names.
  destruct root as [ns l d t cs]. cbn [el_children descendants] in *.
  assert (Hnil : flat_map (xpath_names_at uri false false) cs = []).
  { clear Hns. induction cs as [|c cs IH]; [reflexivity|].
    cbn [flat_map] in *. apply Forall_app in Hcap as [Hhere Hrest].
    now rewrite (xpath_names_at_outside_capability uri c Hhere), (IH Hrest). }
  now rewrite Hnil.
Qed.

(** X28: without a default namespace every [Layer] element gives at most one
    name, the text of its first [Name] child: the names collected are never
    more than the [Layer] elements below the root. *)
Theorem plain_document_one_name_per_layer root :
  (length (collect_plain root) <= length (findall_descendants "Layer" root))%nat.
Proof.
  unfold collect_plain.
  induction (findall_descendants "Layer" root) as [|layer layers IH];
    [reflexivity|].
  cbn [flat_map]. rewrite length_app. cbn [length].
  assert (Hone : (length match find_child "Name" layer with
                         | Some name_el => truthy_texts [name_el]
                         | None => []
                         end <= 1)%nat).
  { destruct (find_child "Name" layer) as [name_el|]; [|cbn; lia].
    unfold truthy_texts. cbn [flat_map]. rewrite app_nil_r.
    destruct (el_text name_el) as [t|]; [|cbn; lia].
    destruct (negb (t =? "")%string); cbn; lia. }
  lia.
Qed.

(** * Concrete runs for the further properties *)

Lemma get_request_answers_after_failures_witness :
  exists s',
    get_request flaky_world [] "https://host/wms" 5 (fresh ∅) =
      Some (Ok (true, "body"), s') /\
    requests s' = 4%nat /\ sleeps s' = 3%nat /\ probes s' = 4%nat /\
    files s' = ∅.
Proof.
  apply (get_request_answers_after_failures flaky_world [] "https://host/wms" 5
           (fresh ∅) 3 (Response 200 "body")).
  - lia.
  - intros i _. reflexivity.
  - intros i Hi. destruct i as [|[|[|i]]]; [reflexivity..|lia].
  - reflexivity.
Defined.

Lemma get_request_stops_when_disconnected_witness :
  exists s',
    get_request dropping_world [] "https://host/wms" 3 (fresh ∅) =
      Some (Ok (false, interrupted_msg), s') /\
    requests s' = 1%nat /\ sleeps s' = 1%nat.
Proof.
  apply (get_request_stops_when_disconnected dropping_world [] "https://host/wms" 3
           (fresh ∅) 1).
  - lia.
  - intros i Hi. destruct i as [|i]; [reflexivity|lia].
  - intros i _. reflexivity.
  - reflexivity.
Defined.

Lemma get_request_lets_other_exceptions_through_witness :
  get_request timing_out_world [] "https://host/wms" 3 (fresh ∅) =
    Some (Raise ReadTimeout, State ∅ [EvGet "https://host/wms" []; EvProbe true]).
Proof.
  apply (get_request_lets_other_exceptions_through timing_out_world []
           "https://host/wms" 3 (fresh ∅) ReadTimeout).
  - lia.
  - reflexivity.
  - reflexivity.
  - reflexivity.
Defined.

Lemma get_request_accounting_witness :
  let s' := State ∅ [EvGet "https://host/wms" []; EvProbe true] in
  files s' = ∅ /\
  (requests s' - 0 <= probes s' - 0)%nat /\
  (probes s' - 0 <= requests s' - 0 + 1)%nat /\
  (sleeps s' - 0 <= requests s' - 0)%nat.
Proof.
  exact (get_request_accounting broken_server [] "https://host/wms" 3 (fresh ∅)
           (Ok (false, "Błąd 500"))
           (State ∅ [EvGet "https://host/wms" []; EvProbe true]) eq_refl).
Defined.

Lemma get_request_sleeps_after_last_failure_witness :
  exists s',
    get_request (serving not_found) [] "https://host/wms" 3 (fresh ∅) =
      Some (Ok (false, exhausted_msg), s') /\
    requests s' = 4%nat /\ sleeps s' = 4%nat /\
    exists tr, trace s' = EvSleep 2 :: tr.
Proof.
  apply (get_request_sleeps_after_last_failure (serving not_found) []
           "https://host/wms" 3 (fresh ∅)).
  - lia.
  - intros i. reflexivity.
  - intros i. reflexivity.
Defined.

Lemma download_touches_only_destination_witness :
  files (snd (download_file (serving small_body) "https://host/a.zip" "/tmp/out"
                None None (fresh {["/tmp/out/b.zip" := two_bytes]})))
    !! "/tmp/out/b.zip" = Some two_bytes.
Proof.
  assert (Hrun :
    download_file (serving small_body) "https://host/a.zip" "/tmp/out" None None
      (fresh {["/tmp/out/b.zip" := two_bytes]}) =
    (fst (download_file (serving small_body) "https://host/a.zip" "/tmp/out"
            None None (fresh {["/tmp/out/b.zip" := two_bytes]})),
     snd (download_file (serving small_body) "https://host/a.zip" "/tmp/out"
            None None (fresh {["/tmp/out/b.zip" := two_bytes]}))))
    by apply surjective_pairing.
  destruct (download_touches_only_destination _ _ _ _ _ _ _ _ "a.zip" Hrun eq_refl)
    as [Hother _].
  rewrite (Hother "/tmp/out/b.zip") by discriminate. reflexivity.
Defined.

Lemma download_raises_on_short_url_witness :
  download_file (serving small_body) "https://host/Archiwum/bdot10k.zip" "/tmp/out"
    None None (fresh ∅) = (Raise IndexError, fresh ∅).
Proof. apply download_raises_on_short_url. reflexivity. Defined.

Lemma download_raises_on_bad_length_witness :
  download_file (serving garbled_length) "https://host/a.zip" "/tmp/out" None None
    (fresh {["/tmp/out/a.zip" := two_bytes]}) =
  (Raise ValueError,
   log (EvGetStream "https://host/a.zip")
     (fresh {["/tmp/out/a.zip" := two_bytes]})).
Proof.
  apply (download_raises_on_bad_length (serving garbled_length) "https://host/a.zip"
           "/tmp/out" None None (fresh {["/tmp/out/a.zip" := two_bytes]})
           garbled_length "a.zip");
    [reflexivity | reflexivity | discriminate | reflexivity].
Defined.

Lemma download_connection_error_removes_old_file_witness :
  exists s',
    download_file flaky_world "https://host/a.zip" "/tmp/out" None None
      (fresh {["/tmp/out/a.zip" := two_bytes]}) =
      (Ok (false, interrupted_msg), s') /\
    files s' = delete "/tmp/out/a.zip" {["/tmp/out/a.zip" := two_bytes]}.
Proof.
  exact (download_connection_error_removes_old_file flaky_world "https://host/a.zip"
           "/tmp/out" None None (fresh {["/tmp/out/a.zip" := two_bytes]})
           ConnectionError "a.zip" eq_refl eq_refl eq_refl eq_refl).
Defined.

Lemma download_writes_the_body_witness :
  exists s',
    download_file (serving small_body) "https://host/a.zip" "/tmp/out" None None
      (fresh {["/tmp/out/a.zip" := [Byte.x00]]}) =
      (Ok (true, "/tmp/out/a.zip"), s') /\
    files s' !! "/tmp/out/a.zip" = Some (two_bytes ++ two_bytes ++ []) /\
    writes s' = 2%nat.
Proof.
  apply (download_writes_the_body (serving small_body) "https://host/a.zip"
           "/tmp/out" None None (fresh {["/tmp/out/a.zip" := [Byte.x00]]})
           small_body "a.zip");
    try reflexivity; try discriminate; exact I.
Defined.

Lemma download_reports_progress_witness :
  exists s',
    download_file (serving small_body) "https://host/a.zip" "/tmp/out"
      (Some ProgressSink) None (fresh ∅) =
      (Ok (true, "/tmp/out/a.zip"), s') /\
    progress_samples (trace s') = [(2, 4); (4, 4)].
Proof.
  destruct (download_reports_progress (serving small_body) "https://host/a.zip"
              "/tmp/out" ProgressSink None (fresh ∅) small_body "a.zip")
    as (s' & Hrun & Hp & _); try reflexivity; try discriminate; try exact I.
  exists s'. split; [exact Hrun | exact Hp].
Defined.

Lemma download_other_error_leaves_partial_file_witness :
  exists s',
    download_file (serving undecodable_body) "https://host/a.zip" "/tmp/out" None
      None (fresh ∅) = (Ok (false, write_error_msg), s') /\
    files s' !! "/tmp/out/a.zip" = Some (two_bytes ++ []).
Proof.
  apply (download_other_error_leaves_partial_file (serving undecodable_body)
           "https://host/a.zip" "/tmp/out" None None (fresh ∅) undecodable_body
           "a.zip" RequestException);
    try reflexivity; try discriminate; exact I.
Defined.

Lemma download_transport_error_removes_file_witness :
  exists s',
    download_file (serving broken_body) "https://host/a.zip" "/tmp/out" None None
      (fresh ∅) = (Ok (false, interrupted_msg), s') /\
    writes s' = 1%nat /\
    files s' !! "/tmp/out/a.zip" = None.
Proof.
  apply (download_transport_error_removes_file (serving broken_body)
           "https://host/a.zip" "/tmp/out" None None (fresh ∅) broken_body
           "a.zip" ChunkedEncodingError);
    try reflexivity; try discriminate; exact I.
Defined.


Lemma download_disconnected_at_start_witness :
  exists s',
    download_file (serving_offline small_body) "https://host/a.zip" "/tmp/out"
      None None (fresh ∅) = (Ok (false, interrupted_msg), s') /\
    writes s' = 0%nat /\ probes s' = 1%nat /\
    files s' !! "/tmp/out/a.zip" = None.
Proof.
  apply (download_disconnected_at_start (serving_offline small_body)
           "https://host/a.zip" "/tmp/out" None None (fresh ∅) small_body "a.zip");
    try reflexivity; try discriminate; exact I.
Defined.

Lemma _cleanup_file_absent_witness :
  _cleanup_file (serving_on_full_disk small_body) "/tmp/out/a.zip"
    (State ∅ [EvOpen "x"; EvMakedirs "y"]) =
  (Ok tt, State ∅ [EvOpen "x"; EvMakedirs "y"]).
Proof.
  exact (proj1 (_cleanup_file_absent (serving_on_full_disk small_body)
                  "/tmp/out/a.zip" (State ∅ [EvOpen "x"; EvMakedirs "y"]) eq_refl)).
Defined.

Lemma _cleanup_file_touches_only_path_witness :
  files (snd (_cleanup_file (serving small_body) "/tmp/out/a.zip"
                (fresh {["/tmp/out/b.zip" := two_bytes]})))
    !! "/tmp/out/b.zip" = Some two_bytes.
Proof.
  destruct (_cleanup_file_touches_only_path (serving small_body) "/tmp/out/a.zip"
              (fresh {["/tmp/out/b.zip" := two_bytes]}) _ _
              (surjective_pairing _)) as [Hother _].
  rewrite (Hother "/tmp/out/b.zip") by discriminate. reflexivity.
Defined.

Lemma filename_is_one_component_witness :
  Py.contains "/" "PRG_id_7.zip" = false /\
  Py.path_join "/tmp/out" "PRG_id_7.zip" = "/tmp/out/PRG_id_7.zip".
Proof.
  exact (filename_is_one_component "https://host/PRG/get?id=7" "/tmp/out"
           "PRG_id_7.zip" eq_refl).
Defined.

Lemma filename_ends_with_baseline_witness :
  exists prefix, "PRG_id_7.zip" = prefix +:+ "id_7.zip".
Proof.
  exact (filename_ends_with_baseline "https://host/PRG/get?id=7" "PRG_id_7.zip"
           eq_refl).
Defined.

Lemma bdot10k_shadows_later_rules_witness :
  (false = false /\ "bdot10k_f.zip" = "bdot10k_f.zip") \/
  (false = true /\
   exists seg,
     nth_error (Py.split "/" "https://host/bdot10k/bdoo/osnowa/f.zip") 5 = Some seg /\
     "bdot10k_f.zip" = "archiwalne_bdot10k_" +:+ seg +:+ "_" +:+ "f.zip").
Proof.
  exact (bdot10k_shadows_later_rules "https://host/bdot10k/bdoo/osnowa/f.zip"
           "bdot10k_f.zip" eq_refl eq_refl eq_refl eq_refl).
Defined.

Lemma query_filename_has_no_query_marks_witness :
  Py.contains "?" "PRG_id_7.zip" = false /\ Py.contains "=" "PRG_id_7.zip" = false.
Proof.
  exact (query_filename_has_no_query_marks "https://host/PRG/get?a=1?id=7"
           "PRG_id_7.zip" eq_refl eq_refl eq_refl).
Defined.

Lemma get_wms_layers_result_clean_witness :
  NoDup ["A"] /\ forall x, x ∈ ["A"] -> x <> EmptyString.
Proof.
  exact (get_wms_layers_result_clean capabilities_world parse_nested parse_nested
           "https://host/wms" "WMS" (fresh ∅) ["A"]
           (State ∅ [EvGet "https://host/wms"
                       [("SERVICE", "WMS"); ("REQUEST", "GetCapabilities");
                        ("VERSION", "1.3.0")];
                     EvProbe true])
           eq_refl).
Defined.

Lemma get_wms_layers_swallows_failure_witness :
  exists s',
    get_wms_layers broken_server parse_nested parse_nested "https://host/wms" "WMS"
      (fresh ∅) = Some (Ok [], s').
Proof.
  apply (get_wms_layers_swallows_failure broken_server parse_nested parse_nested
           "https://host/wms" "WMS" (fresh ∅)).
  right. split; [reflexivity|].
  exists (Response 500 "Internal Server Error"). split; [reflexivity | discriminate].
Defined.

Lemma get_wms_layers_raises_without_root_witness :
  get_wms_layers capabilities_world parse_nothing parse_nothing "https://host/wms"
    "WMS" (fresh ∅) =
  Some (Raise AttributeError,
        State ∅ [EvGet "https://host/wms"
                   [("SERVICE", "WMS"); ("REQUEST", "GetCapabilities");
                    ("VERSION", "1.3.0")];
                 EvProbe true]).
Proof.
  apply (get_wms_layers_raises_without_root capabilities_world parse_nothing
           parse_nothing "https://host/wms" "WMS" (fresh ∅) "<WMS_Capabilities/>");
    [reflexivity | discriminate | reflexivity].
Defined.

Lemma namespaced_document_needs_capability_witness :
  layers_of_root stray_layer = [].
Proof.
  apply (namespaced_document_needs_capability "http://www.opengis.net/wms");
    [reflexivity | discriminate | repeat constructor].
Defined.

Lemma check_connection_yes_iff_200_witness :
  fst (check_connection capabilities_world (fresh ∅)) = Ok true.
Proof.
  apply (proj2 (proj1 (check_connection_yes_iff_200 capabilities_world (fresh ∅)))).
  exists (Response 200 "<WMS_Capabilities/>"). split; reflexivity.
Defined.
